(** * RAW data viewer: a shallow embedding of [app.py] and [streamlit_app.py]

    The two scripts authenticate against Google Sheets, load one worksheet
    into a pandas DataFrame, and render a filterable table and one metric
    with Streamlit.  The embedding keeps the three stages of the scripts
    ([authorize_gspread], [load_simple_data], and the page body) and models
    the library calls they make:

    - Python exceptions and Streamlit output: a writer/error monad [M];
    - pandas: a [DataFrame] with named columns and rows as finite maps;
      how pandas reads a text as a number is a parameter, [Reader];
    - gspread, google-auth, [os.path] and [st.secrets]: a [World] of
      oracles, each returning a value or raising.

    A finite number is the exact rational it stands for; the rounding and
    overflow of [float] arithmetic are not modelled.
    The memoisation decorators ([st.cache_resource], [st.cache_data]) are
    not modelled: one run of the script is one evaluation of [page]. *)

From Stdlib Require Import QArith Qabs ZArith String Ascii DecimalString.
From Stdlib Require Import Sorting.Sorted.
From stdpp Require Import gmap strings list.

Close Scope Q_scope.
Open Scope string_scope.

(** ** Python values *)

Module Py.

(** A [float] is a finite number, [nan], or an infinity ([inf], or [-inf]
    when [negative]).  [int] and [float] are not told apart: Python compares
    them by value. *)
Inductive num :=
| Fin (q : Q)
| NaN
| Inf (negative : bool).

(** What a worksheet cell, and hence a DataFrame cell, can hold. *)
Inductive cell :=
| CStr (s : string)
| CNum (x : num).

Inductive exn :=
| WorksheetNotFound (msg : string)  (* gspread.exceptions.WorksheetNotFound *)
| OtherException (msg : string)    (* any other subclass of Exception *)
| KeyError (key : string)
| TypeError (msg : string)
| StreamlitSecretNotFoundError (msg : string).  (* streamlit.errors, an Exception *)

(** [str(e)] *)
Definition str_exn (e : exn) : string :=
  match e with
  | WorksheetNotFound msg => msg
  | OtherException msg => msg
  | KeyError key => "'" ++ key ++ "'"
  | TypeError msg => msg
  | StreamlitSecretNotFoundError msg => msg
  end.

Inductive result (A : Type) :=
| Ok (a : A)
| Raise (e : exn).
Arguments Ok {A} a.
Arguments Raise {A} e.

(** [a == b] *)
Definition num_eqb (a b : num) : bool :=
  match a, b with
  | Fin p, Fin q => Qeq_bool p q
  | Inf s, Inf t => Bool.eqb s t
  | _, _ => false
  end.

Definition py_eq (a b : cell) : bool :=
  match a, b with
  | CStr s, CStr t => bool_decide (s = t)
  | CNum x, CNum y => num_eqb x y
  | _, _ => false
  end.

(** The type name in the message of a failed comparison.  A cell does not
    record whether its number is an [int] or a [float]; the message names
    [float] for both, and no statement below depends on its wording. *)
Definition type_name (a : cell) : string :=
  match a with
  | CStr _ => "str"
  | CNum _ => "float"
  end.

(** Code-point order on [str]; UTF-8 keeps it bytewise. *)
Fixpoint str_ltb (s t : string) : bool :=
  match s, t with
  | EmptyString, EmptyString => false
  | EmptyString, String _ _ => true
  | String _ _, EmptyString => false
  | String a s', String b t' =>
      let x := nat_of_ascii a in
      let y := nat_of_ascii b in
      if (x <? y)%nat then true
      else if (y <? x)%nat then false
      else str_ltb s' t'
  end.

Definition num_ltb (a b : num) : bool :=
  match a, b with
  | Fin p, Fin q => match (p ?= q)%Q with Lt => true | _ => false end
  | Inf true, Fin _ => true
  | Inf true, Inf false => true
  | Fin _, Inf false => true
  | _, _ => false
  end.

(** [a < b]: a [str] and a number do not compare. *)
Definition py_lt (a b : cell) : result bool :=
  match a, b with
  | CStr s, CStr t => Ok (str_ltb s t)
  | CNum x, CNum y => Ok (num_ltb x y)
  | _, _ =>
      Raise (TypeError ("'<' not supported between instances of '"
                          ++ type_name a ++ "' and '" ++ type_name b ++ "'"))
  end.

(** [sorted(l)] as a stable insertion sort on [<].  On a list without
    [nan] every stable comparison sort returns this list; with a [str] and
    a number in the list every one of them raises.  With [nan] among the
    numbers the order Python returns depends on its merge strategy and is
    not this one: there only the elements and the absence of a raise are
    Python's. *)
Fixpoint insert_sorted (x : cell) (l : list cell) : result (list cell) :=
  match l with
  | [] => Ok [x]
  | y :: l' =>
      match py_lt x y with
      | Raise e => Raise e
      | Ok true => Ok (x :: y :: l')
      | Ok false =>
          match insert_sorted x l' with
          | Raise e => Raise e
          | Ok r => Ok (y :: r)
          end
      end
  end.

Definition sorted (l : list cell) : result (list cell) :=
  foldl (fun acc x =>
           match acc with
           | Raise e => Raise e
           | Ok s => insert_sorted x s
           end) (Ok []) l.

(** *** A reader of plain decimal literals

    The grammar read here is [[+-]digits[.digits]] with at least one
    digit.  It is the [Reader] of the sample sheets, whose texts pandas
    reads alike; it is not pandas' reader, which also reads exponents,
    blanks around the number and the infinities. *)

Definition digit_of (a : ascii) : option Z :=
  let n := nat_of_ascii a in
  if ((48 <=? n) && (n <=? 57))%nat then Some (Z.of_nat (n - 48)) else None.

(** Reads a run of digits: value so far, digits read, unread rest. *)
Fixpoint read_digits (s : string) (acc : Z) (cnt : nat) : Z * nat * string :=
  match s with
  | EmptyString => (acc, cnt, s)
  | String a s' =>
      match digit_of a with
      | Some d => read_digits s' (10 * acc + d)%Z (S cnt)
      | None => (acc, cnt, s)
      end
  end.

Definition parse_unsigned (s : string) : option Q :=
  let '(v1, n1, rest) := read_digits s 0%Z 0%nat in
  match rest with
  | EmptyString => if (0 <? n1)%nat then Some (inject_Z v1) else None
  | String "." rest' =>
      let '(v2, n2, rest2) := read_digits rest' 0%Z 0%nat in
      match rest2 with
      | EmptyString =>
          if (0 <? n1 + n2)%nat
          then Some (Qred (Qmake (v1 * 10 ^ Z.of_nat n2 + v2)
                                 (Z.to_pos (10 ^ Z.of_nat n2))))
          else None
      | _ => None
      end
  | _ => None
  end.

Definition parse_float (s : string) : option Q :=
  match s with
  | String "-" s' => Qopp <$> parse_unsigned s'
  | String "+" s' => parse_unsigned s'
  | _ => parse_unsigned s
  end.

(** *** [f"{x:.1f}"]

    One decimal of the exact rational, ties to even.  A [float] that only
    approximates a decimal tie (0.35, say) is rounded by Python on its
    binary value; that is not modelled. *)

Definition round_half_even (q : Q) : Z :=
  let n := Qnum q in
  let d := Z.pos (Qden q) in
  let f := (n / d)%Z in
  let r2 := (2 * (n mod d))%Z in
  if (r2 <? d)%Z then f
  else if (d <? r2)%Z then (f + 1)%Z
  else if Z.even f then f else (f + 1)%Z.

Definition str_Z (z : Z) : string :=
  NilZero.string_of_uint (N.to_uint (Z.to_N z)).

Definition format_1f (x : num) : string :=
  match x with
  | NaN => "nan"
  | Inf false => "inf"
  | Inf true => "-inf"
  | Fin q =>
      let t := round_half_even (Qabs q * 10)%Q in
      (if (Qnum q <? 0)%Z then "-" else EmptyString)
        ++ str_Z (t / 10) ++ "." ++ str_Z (t mod 10)
  end.

End Py.
Export Py.

(** ** Streamlit output and the script monad *)

Module St.

(** pandas' [DataFrame]: column labels in order, and one finite map per
    row.  A cell that a row does not hold reads as [nan]. *)
Record DataFrame := mkDataFrame {
  columns : list string;
  rows : list (gmap string cell)
}.

(** The elements a script puts on the page, in call order. *)
Inductive event :=
| st_set_page_config (page_title page_icon layout : string)
| st_title (body : string)
| st_write (body : string)
| st_header (body : string)
| st_sidebar_header (body : string)
| st_error (body : string)
| st_warning (body : string)
| st_sidebar_selectbox (label : string) (options : list cell)
| st_dataframe (data : DataFrame)
| st_metric (label value : string).

(** A computation renders elements and then returns or raises; what was
    rendered before a raise stays on the page. *)
Definition M (A : Type) : Type := list event * result A.

Definition ret {A} (a : A) : M A := ([], Ok a).

Definition bind {A B} (m : M A) (k : A -> M B) : M B :=
  match m with
  | (out, Ok a) => let '(out', r) := k a in ((out ++ out')%list, r)
  | (out, Raise e) => (out, Raise e)
  end.

Definition raise {A} (e : exn) : M A := ([], Raise e).

Definition emit (ev : event) : M unit := ([ev], Ok tt).

(** A library call, which renders nothing. *)
Definition call {A} (r : result A) : M A := ([], r).

(** [try: body  except WorksheetNotFound: h1 e  except Exception as e: h2 e] *)
Definition try_except {A} (body : M A) (handler : exn -> M A) : M A :=
  match body with
  | (out, Ok a) => (out, Ok a)
  | (out, Raise e) => let '(out', r) := handler e in ((out ++ out')%list, r)
  end.

Definition output {A} (m : M A) : list event := fst m.
Definition outcome {A} (m : M A) : result A := snd m.

(** The run [m] with the elements [out] rendered before it. *)
Definition after {A} (out : list event) (m : M A) : M A :=
  ((out ++ output m)%list, outcome m).

End St.
Export St.

Notation "x <- c1 ;;; c2" := (bind c1 (fun x => c2))
  (at level 100, c1 at next level, right associativity,
   format "'[v' x  <-  c1  ;;; '/' c2 ']'").
Notation "c1 ;;; c2" := (bind c1 (fun _ => c2))
  (at level 100, right associativity,
   format "'[v' c1  ;;; '/' c2 ']'").

(** ** pandas *)

Module Pd.

(** [row[c]]: a label the row does not hold reads as [nan]. *)
Definition cell_at (r : gmap string cell) (c : string) : cell :=
  default (CNum NaN) (r !! c).

(** A row restricted to the labels [cols]. *)
Definition project (cols : list string) (r : gmap string cell) : gmap string cell :=
  list_to_map (map (fun c => (c, cell_at r c)) cols).

(** The labels of a list, each once, in order of first appearance. *)
Fixpoint first_seen (l : list string) : list string :=
  match l with
  | [] => []
  | x :: l' => x :: filter (fun y => y ≠ x) (first_seen l')
  end.

(** [pd.DataFrame(data)] for a list of dicts: the columns are the keys seen,
    in order of first appearance; a key a dict lacks is [nan] in its row. *)
Definition pd_DataFrame (data : list (list (string * cell))) : DataFrame :=
  let cols := first_seen (concat (map (map fst) data)) in
  {| columns := cols;
     rows := map (fun rec => project cols (list_to_map rec)) data |}.

(** [df.empty]: no column or no row. *)
Definition empty (df : DataFrame) : bool :=
  match columns df, rows df with
  | [], _ => true
  | _, [] => true
  | _, _ => false
  end.

(** [df[c]] for one label: the column as a Series, or [KeyError]. *)
Definition getitem (df : DataFrame) (c : string) : M (list cell) :=
  if decide (c ∈ columns df)
  then ret (map (fun r => cell_at r c) (rows df))
  else raise (KeyError c).

(** [df[c] = s] *)
Definition setitem (df : DataFrame) (c : string) (s : list cell) : DataFrame :=
  {| columns := if decide (c ∈ columns df) then columns df
                else (columns df ++ [c])%list;
     rows := zip_with (fun r v => <[c := v]> r) (rows df) s |}.

(** [df[cols]] for a list of labels: the projection, or [KeyError] on the
    first label that is not a column. *)
Definition getitem_cols (df : DataFrame) (cols : list string) : M DataFrame :=
  match filter (fun c => c ∉ columns df) cols with
  | [] => ret {| columns := cols; rows := map (project cols) (rows df) |}
  | c :: _ => raise (KeyError c)
  end.

(** [df.values.tolist()]: the cells row by row, in column order. *)
Definition values (df : DataFrame) : list (list cell) :=
  map (fun r => map (cell_at r) (columns df)) (rows df).

(** [df[mask]] for a boolean Series: the rows where the mask holds. *)
Definition getitem_mask (df : DataFrame) (mask : list bool) : DataFrame :=
  {| columns := columns df;
     rows := fst <$> filter (fun p => p.2 = true) (zip (rows df) mask) |}.

(** [s == v], elementwise *)
Definition series_eq (s : list cell) (v : cell) : list bool :=
  map (fun c => py_eq c v) s.

(** How pandas reads one text as a number under [errors='coerce']: the
    number the text spells, [nan] when it spells none.  The embedding does
    not fix pandas' grammar: every statement holds for any reader. *)
Class Reader := read_text : string -> num.

(** [pd.to_numeric(s, errors='coerce')]: numbers stay, a [str] is read,
    and what does not read as a number becomes [nan]. *)
Definition to_numeric1 `{Reader} (c : cell) : num :=
  match c with
  | CNum x => x
  | CStr s => read_text s
  end.

Definition to_numeric `{Reader} (s : list cell) : list num := map to_numeric1 s.

(** [s.fillna(v)] *)
Definition fillna (v : Q) (s : list num) : list num :=
  map (fun x => match x with NaN => Fin v | _ => x end) s.

(** [s.unique()]: first appearances; all [nan] count as one value. *)
Definition same_value (a b : cell) : bool :=
  match a, b with
  | CNum NaN, CNum NaN => true
  | _, _ => py_eq a b
  end.

Fixpoint unique (s : list cell) : list cell :=
  match s with
  | [] => []
  | x :: s' => x :: filter (fun y => same_value x y = false) (unique s')
  end.

(** [s.mean()]: [nan] entries are skipped; no entry left gives [nan]; a
    [str] entry raises.  The sum of the entries left is divided by their
    count; an infinity absorbs finite numbers, and [inf] with [-inf] sum to
    [nan]. *)
Fixpoint numeric_values (s : list cell) : result (list num) :=
  match s with
  | [] => Ok []
  | CStr _ :: _ => Raise (TypeError "Could not convert string to numeric")
  | CNum NaN :: s' => numeric_values s'
  | CNum x :: s' =>
      match numeric_values s' with
      | Ok xs => Ok (x :: xs)
      | Raise e => Raise e
      end
  end.

Definition num_add (a b : num) : num :=
  match a, b with
  | Fin p, Fin q => Fin (p + q)
  | Inf s, Fin _ => Inf s
  | Fin _, Inf s => Inf s
  | Inf s, Inf t => if Bool.eqb s t then Inf s else NaN
  | _, _ => NaN
  end.

Definition num_div (a : num) (n : nat) : num :=
  match a with
  | Fin q => Fin (Qred (q / inject_Z (Z.of_nat n)))
  | _ => a
  end.

Definition mean (s : list cell) : M num :=
  match numeric_values s with
  | Raise e => raise e
  | Ok [] => ret NaN
  | Ok xs => ret (num_div (foldl num_add (Fin 0) xs) (length xs))
  end.

End Pd.
Export Pd.

(** ** The outside world: gspread, google-auth, the file system, secrets *)

Module Ext.

Record Worksheet := mkWorksheet {
  get_all_records : result (list (list (string * cell)))
}.

Record Spreadsheet := mkSpreadsheet {
  worksheet : string -> result Worksheet
}.

Record Client := mkClient {
  open_by_url : string -> result Spreadsheet
}.

(** A value of [st.secrets]: a string or a nested table. *)
#[warnings="-register-all"]
Inductive secret :=
| SecretStr (s : string)
| SecretTable (kv : list (string * secret)).

Record Credentials := mkCredentials {
  account : string;
  scopes : list string
}.

Record World := mkWorld {
  (* os.path.exists *)
  os_path_exists : string -> bool;
  (* the content of st.secrets; None when no secrets file exists, in which
     case reading st.secrets raises *)
  st_secrets : option (list (string * secret));
  (* Credentials.from_service_account_file(path, scopes=...) *)
  from_service_account_file : string -> list string -> result Credentials;
  (* Credentials.from_service_account_info(info, scopes=...) *)
  from_service_account_info : secret -> list string -> result Credentials;
  (* gspread.authorize *)
  gspread_authorize : Credentials -> result Client
}.

(** What reading [st.secrets] raises when no secrets file exists: a
    [StreamlitSecretNotFoundError] (a [FileNotFoundError] in older releases
    of Streamlit), an [Exception] either way.  The paths Streamlit lists
    after these words are left out. *)
Definition no_secrets : exn := StreamlitSecretNotFoundError "No secrets found.".

(** [hasattr(st, 'secrets') and k in st.secrets]: [st] always has the
    attribute, and the membership test reads the secrets. *)
Definition secrets_contains (w : World) (k : string) : M bool :=
  match st_secrets w with
  | Some kv => ret (bool_decide (k ∈ kv.*1))
  | None => raise no_secrets
  end.

(** [st.secrets[k]] *)
Definition secrets_getitem (w : World) (k : string) : M secret :=
  match st_secrets w with
  | Some kv =>
      match (list_to_map kv : gmap string secret) !! k with
      | Some v => ret v
      | None => raise (KeyError k)
      end
  | None => raise no_secrets
  end.

(** [st.sidebar.selectbox(label, options)]: renders the control and returns
    the option the operator has chosen, the first one by default.  (The
    scripts never pass an empty option list.) *)
Definition chosen (options : list cell) (choice : nat) : cell :=
  default (default (CNum NaN) (head options)) (options !! choice).

Definition selectbox (label : string) (options : list cell) (choice : nat)
  : M cell :=
  emit (st_sidebar_selectbox label options);;;
  ret (chosen options choice).

(** The three gspread calls of a load, in order: the document, the
    worksheet, its records. *)
Definition fetch_records (client : Client) (sheet_url sheet_name : string)
  : result (list (list (string * cell))) :=
  match open_by_url client sheet_url with
  | Raise e => Raise e
  | Ok spreadsheet =>
      match worksheet spreadsheet sheet_name with
      | Raise e => Raise e
      | Ok ws => get_all_records ws
      end
  end.

End Ext.
Export Ext.

(** ** [app.py] *)

Module App.

Definition SERVICE_ACCOUNT_FILE : string := "credentials.json".

Definition SCOPES : list string :=
  [ "https://www.googleapis.com/auth/spreadsheets";
    "https://www.googleapis.com/auth/drive.file" ].

Definition SHEET_URL : string :=
  "https://docs.google.com/spreadsheets/d/1dvx7XQDZCp1f60bdoEi6KcUGpvghO3kxdGZJkj_ZSiE".

(** The [try: gspread.authorize(creds)] block that ends the function. *)
Definition authorize_with (w : World) (creds : Credentials) : M (option Client) :=
  try_except
    (client <- call (gspread_authorize w creds);;;
     ret (Some client))
    (fun e =>
       emit (st_error ("gspread 인증 중 오류 발생: " ++ str_exn e));;;
       ret None).

Definition authorize_gspread (w : World) : M (option Client) :=
  if os_path_exists w SERVICE_ACCOUNT_FILE then
    creds <- call (from_service_account_file w SERVICE_ACCOUNT_FILE SCOPES);;;
    authorize_with w creds
  else
    in_secrets <- secrets_contains w "gcp_service_account";;;
    if in_secrets : bool then
      creds_dict <- secrets_getitem w "gcp_service_account";;;
      creds <- call (from_service_account_info w creds_dict SCOPES);;;
      authorize_with w creds
    else
      emit (st_error ("'" ++ SERVICE_ACCOUNT_FILE
                        ++ "' 파일을 찾을 수 없거나 Streamlit Secrets가 설정되지 않았습니다."));;;
      ret None.

Definition load_simple_data `{Reader} (_client : option Client)
    (sheet_url sheet_name : string) : M DataFrame :=
  match _client with
  | None => ret (pd_DataFrame [])
  | Some _client =>
      try_except
        (spreadsheet <- call (open_by_url _client sheet_url);;;
         worksheet <- call (worksheet spreadsheet sheet_name);;;
         data <- call (get_all_records worksheet);;;
         let df := pd_DataFrame data in
         if decide ("누적시간" ∈ columns df) then
           s <- getitem df "누적시간";;;
           ret (setitem df "누적시간" (CNum <$> fillna 0 (to_numeric s)))
         else ret df)
        (fun e =>
           match e with
           | WorksheetNotFound _ =>
               emit (st_error ("'" ++ sheet_name
                                 ++ "' 시트를 찾을 수 없습니다. 시트 이름을 확인하세요."));;;
               ret (pd_DataFrame [])
           | _ =>
               emit (st_error ("시트 로드 중 오류 발생: " ++ str_exn e));;;
               ret (pd_DataFrame [])
           end)
  end.

Definition display_columns : list string :=
  ["클러스터"; "사번"; "이름"; "부서명"; "누적시간"].

Definition available_columns (df_raw : DataFrame) : list string :=
  filter (fun col => col ∈ columns df_raw) display_columns.

Definition missing_columns (df_raw : DataFrame) : list string :=
  filter (fun col => col ∉ columns df_raw) display_columns.

(** [['전체'] + sorted(df_raw['클러스터'].unique().tolist())] *)
Definition all_clusters (df_raw : DataFrame) : M (list cell) :=
  s <- getitem df_raw "클러스터";;;
  l <- call (sorted (unique s));;;
  ret (CStr "전체" :: l).

Definition df_display (df_raw : DataFrame) (available_columns : list string)
    (selected_cluster : cell) : M DataFrame :=
  if py_eq selected_cluster (CStr "전체") then
    getitem_cols df_raw available_columns
  else
    s <- getitem df_raw "클러스터";;;
    getitem_cols (getitem_mask df_raw (series_eq s selected_cluster))
                 available_columns.

Definition avg_hours (df_display : DataFrame) : M num :=
  s <- getitem df_display "누적시간";;;
  mean s.

(** The body of [if client:] after the load (the spec's View Composer);
    [choice] is the position the operator picked in the select box. *)
Definition view_composer (df_raw : DataFrame) (choice : nat) : M unit :=
  if negb (empty df_raw) then
    let available_columns := available_columns df_raw in
    let missing_columns := missing_columns df_raw in
    (match missing_columns with
     | [] => ret tt
     | _ :: _ =>
         emit (st_warning ("시트에서 다음 컬럼을 찾을 수 없습니다: "
                             ++ String.concat ", " missing_columns))
     end);;;
    match available_columns with
    | _ :: _ =>
        emit (st_header "RAW 데이터");;;
        emit (st_sidebar_header "필터");;;
        all_clusters <- all_clusters df_raw;;;
        selected_cluster <- selectbox "클러스터 선택:" all_clusters choice;;;
        df_display <- df_display df_raw available_columns selected_cluster;;;
        emit (st_dataframe df_display);;;
        emit (st_header "간단 요약");;;
        avg_hours <- avg_hours df_display;;;
        emit (st_metric "평균 누적 시간" (format_1f avg_hours ++ " 시간"))
    | [] =>
        emit (st_error "요청하신 컬럼이 시트에 하나도 존재하지 않습니다. 'RAW' 시트의 헤더를 확인하세요.")
    end
  else
    emit (st_error "'RAW' 시트에서 데이터를 불러오는 데 실패했거나 데이터가 없습니다.").

(** The script, top to bottom. *)
Definition page `{Reader} (w : World) (choice : nat) : M unit :=
  emit (st_set_page_config "RAW 데이터 조회" "📄" "wide");;;
  emit (st_title "📄 RAW 데이터 조회 (기본 뷰)");;;
  emit (st_write ("대상 시트: " ++ SHEET_URL));;;
  client <- authorize_gspread w;;;
  match client with
  | Some _ =>
      df_raw <- load_simple_data client SHEET_URL "클러스터별";;;
      view_composer df_raw choice
  | None =>
      emit (st_warning "Google Sheets 인증에 실패했습니다. 'credentials.json' 파일을 확인하세요.")
  end.

End App.

(** ** [streamlit_app.py] *)

Module StreamlitApp.

Definition SERVICE_ACCOUNT_FILE : string := "credentials.json".

Definition SCOPES : list string :=
  [ "https://www.googleapis.com/auth/spreadsheets";
    "https://www.googleapis.com/auth/drive.file" ].

Definition SHEET_URL : string :=
  "https://docs.google.com/spreadsheets/d/1dvx7XQDZCp1f60bdoEi6KcUGpvghO3kxdGZJkj_ZSiE".

(** The [try: gspread.authorize(creds)] block that ends the function. *)
Definition authorize_with (w : World) (creds : Credentials) : M (option Client) :=
  try_except
    (client <- call (gspread_authorize w creds);;;
     ret (Some client))
    (fun e =>
       emit (st_error ("gspread 인증 중 오류 발생: " ++ str_exn e));;;
       ret None).

Definition authorize_gspread (w : World) : M (option Client) :=
  if os_path_exists w SERVICE_ACCOUNT_FILE then
    creds <- call (from_service_account_file w SERVICE_ACCOUNT_FILE SCOPES);;;
    authorize_with w creds
  else
    in_secrets <- secrets_contains w "private_key";;;
    if in_secrets : bool then
      creds <- call (from_service_account_info w
                       (SecretTable (default [] (st_secrets w))) SCOPES);;;
      authorize_with w creds
    else
      emit (st_error "인증 정보를 찾을 수 없습니다.");;;
      emit (st_error "로컬에서는 'credentials.json' 파일이 필요하고, 배포 시에는 Streamlit Cloud의 'Secrets' 설정이 필요합니다.");;;
      ret None.

Definition load_simple_data `{Reader} (_client : option Client)
    (sheet_url sheet_name : string) : M DataFrame :=
  match _client with
  | None => ret (pd_DataFrame [])
  | Some _client =>
      try_except
        (spreadsheet <- call (open_by_url _client sheet_url);;;
         worksheet <- call (worksheet spreadsheet sheet_name);;;
         data <- call (get_all_records worksheet);;;
         let df := pd_DataFrame data in
         if decide ("누적시간" ∈ columns df) then
           s <- getitem df "누적시간";;;
           ret (setitem df "누적시간" (CNum <$> fillna 0 (to_numeric s)))
         else ret df)
        (fun e =>
           match e with
           | WorksheetNotFound _ =>
               emit (st_error ("'" ++ sheet_name
                                 ++ "' 시트를 찾을 수 없습니다. 시트 이름을 확인하세요."));;;
               ret (pd_DataFrame [])
           | _ =>
               emit (st_error ("시트 로드 중 오류 발생: " ++ str_exn e));;;
               ret (pd_DataFrame [])
           end)
  end.

Definition display_columns : list string :=
  ["클러스터"; "사번"; "이름"; "부서명"; "누적시간"].

Definition available_columns (df_raw : DataFrame) : list string :=
  filter (fun col => col ∈ columns df_raw) display_columns.

Definition missing_columns (df_raw : DataFrame) : list string :=
  filter (fun col => col ∉ columns df_raw) display_columns.

(** [['전체'] + sorted(df_raw['클러스터'].unique().tolist())] *)
Definition all_clusters (df_raw : DataFrame) : M (list cell) :=
  s <- getitem df_raw "클러스터";;;
  l <- call (sorted (unique s));;;
  ret (CStr "전체" :: l).

Definition df_display (df_raw : DataFrame) (available_columns : list string)
    (selected_cluster : cell) : M DataFrame :=
  if py_eq selected_cluster (CStr "전체") then
    getitem_cols df_raw available_columns
  else
    s <- getitem df_raw "클러스터";;;
    getitem_cols (getitem_mask df_raw (series_eq s selected_cluster))
                 available_columns.

Definition avg_hours (df_display : DataFrame) : M num :=
  s <- getitem df_display "누적시간";;;
  mean s.

(** The body of [if client:] after the load (the spec's View Composer);
    [choice] is the position the operator picked in the select box. *)
Definition view_composer (df_raw : DataFrame) (choice : nat) : M unit :=
  if negb (empty df_raw) then
    let available_columns := available_columns df_raw in
    let missing_columns := missing_columns df_raw in
    (match missing_columns with
     | [] => ret tt
     | _ :: _ =>
         emit (st_warning ("시트에서 다음 컬럼을 찾을 수 없습니다: "
                             ++ String.concat ", " missing_columns))
     end);;;
    match available_columns with
    | _ :: _ =>
        emit (st_header "RAW 데이터");;;
        emit (st_sidebar_header "필터");;;
        all_clusters <- all_clusters df_raw;;;
        selected_cluster <- selectbox "클러스터 선택:" all_clusters choice;;;
        df_display <- df_display df_raw available_columns selected_cluster;;;
        emit (st_dataframe df_display);;;
        emit (st_header "간단 요약");;;
        avg_hours <- avg_hours df_display;;;
        emit (st_metric "평균 누적 시간" (format_1f avg_hours ++ " 시간"))
    | [] =>
        emit (st_error "요청하신 컬럼이 시트에 하나도 존재하지 않습니다. '클러스터별' 시트의 헤더를 확인하세요.")
    end
  else
    emit (st_error "'클러스터별' 시트에서 데이터를 불러오는 데 실패했거나 데이터가 없습니다.").

(** The script, top to bottom. *)
Definition page `{Reader} (w : World) (choice : nat) : M unit :=
  emit (st_set_page_config "RAW 데이터 조회" "📄" "wide");;;
  emit (st_title "📄 RAW 데이터 조회 (기본 뷰)");;;
  emit (st_write ("대상 시트: " ++ SHEET_URL));;;
  client <- authorize_gspread w;;;
  match client with
  | Some _ =>
      df_raw <- load_simple_data client SHEET_URL "클러스터별";;;
      view_composer df_raw choice
  | None =>
      emit (st_warning "Google Sheets 인증에 실패했습니다. (Secrets 설정 또는 로컬 파일 확인)")
  end.

End StreamlitApp.

(** ** Notions the statements use *)

Module Spec.

(** The spec's coercion of one accumulated-time value: parse as a number;
    what does not parse, or is absent, becomes 0. *)
Definition coerced `{Reader} (v : option cell) : num :=
  match v with
  | None => Fin 0
  | Some (CNum NaN) => Fin 0
  | Some (CNum x) => x
  | Some (CStr s) =>
      match read_text s with
      | NaN => Fin 0
      | x => x
      end
  end.

(** The elements of the data view: filter control, table, metric. *)
Definition is_view_event (ev : event) : bool :=
  match ev with
  | st_sidebar_selectbox _ _ | st_dataframe _ | st_metric _ _ => true
  | _ => false
  end.

(** An element with the wording of an error or warning left out. *)
Definition erase_wording (ev : event) : event :=
  match ev with
  | st_error _ => st_error EmptyString
  | st_warning _ => st_warning EmptyString
  | _ => ev
  end.

(** What the loader reports for an exception of the fetch. *)
Definition load_failure_report (sheet_name : string) (e : exn) : event :=
  match e with
  | WorksheetNotFound _ =>
      st_error ("'" ++ sheet_name ++ "' 시트를 찾을 수 없습니다. 시트 이름을 확인하세요.")
  | _ => st_error ("시트 로드 중 오류 발생: " ++ str_exn e)
  end.

(** The table a successful fetch of [data] is loaded as. *)
Definition loaded `{Reader} (data : list (list (string * cell))) : DataFrame :=
  let df := pd_DataFrame data in
  if decide ("누적시간" ∈ columns df) then
    setitem df "누적시간"
      (CNum <$> fillna 0 (to_numeric (map (fun r => cell_at r "누적시간") (rows df))))
  else df.

(** The environment secret each script accepts, when it is configured:
    [app.py] reads the table nested under the key gcp_service_account,
    [streamlit_app.py] takes the whole of [st.secrets] when it holds a
    private_key. *)
Definition nested_secret (w : World) : option secret :=
  kv ← st_secrets w; (list_to_map kv : gmap string secret) !! "gcp_service_account".

Definition top_level_secret (w : World) : option secret :=
  kv ← st_secrets w;
  if bool_decide ("private_key" ∈ kv.*1) then Some (SecretTable kv) else None.

Definition page_head (url : string) : list event :=
  [ st_set_page_config "RAW 데이터 조회" "📄" "wide";
    st_title "📄 RAW 데이터 조회 (기본 뷰)";
    st_write ("대상 시트: " ++ url) ].

(** Credential resolution as the spec words it: the local file first, the
    environment secret only when the file is absent, [hint] and no handle
    when the secrets that exist hold no credential, and the cause reported
    when authorization raises. *)
Definition resolves_credentials
    (authorize_gspread : World -> M (option Client))
    (page : World -> nat -> M unit)
    (env_secret : World -> option secret)
    (scopes : list string) (url : string)
    (hint : list event) (notice : event) : Prop :=
  forall w : World,
    let authorized creds :=
      match gspread_authorize w creds with
      | Ok client => authorize_gspread w = ([], Ok (Some client))
      | Raise e =>
          authorize_gspread w
          = ([st_error ("gspread 인증 중 오류 발생: " ++ str_exn e)], Ok None)
      end in
    (os_path_exists w "credentials.json" = true ->
     forall creds,
       from_service_account_file w "credentials.json" scopes = Ok creds ->
       authorized creds)
    /\ (os_path_exists w "credentials.json" = false ->
        forall sec creds,
          env_secret w = Some sec ->
          from_service_account_info w sec scopes = Ok creds ->
          authorized creds)
    /\ (os_path_exists w "credentials.json" = false ->
        is_Some (st_secrets w) ->
        env_secret w = None ->
        authorize_gspread w = (hint, Ok None)
        /\ forall choice,
            page w choice = ((page_head url ++ hint ++ [notice])%list, Ok tt)).

End Spec.
Export Spec.

(** ** What the view composer shows *)

Module View.

(** The warning about missing wanted columns, when there is any. *)
Definition missing_warning (df : DataFrame) : list event :=
  match App.missing_columns df with
  | [] => []
  | _ :: _ =>
      [st_warning ("시트에서 다음 컬럼을 찾을 수 없습니다: "
                     ++ String.concat ", " (App.missing_columns df))]
  end.

(** The rows a selection keeps. *)
Definition kept_rows (df : DataFrame) (selected_cluster : cell)
  : list (gmap string cell) :=
  if py_eq selected_cluster (CStr "전체") then rows df
  else filter (fun r => py_eq (cell_at r "클러스터") selected_cluster = true)
              (rows df).

(** The table on display for a selection. *)
Definition shown (df : DataFrame) (selected_cluster : cell) : DataFrame :=
  {| columns := App.available_columns df;
     rows := project (App.available_columns df) <$> kept_rows df selected_cluster |}.

(** Two runs that end alike and render the same elements, up to the
    wording of errors and warnings. *)
Definition similar {A} (m1 m2 : M A) : Prop :=
  outcome m1 = outcome m2
  /\ erase_wording <$> output m1 = erase_wording <$> output m2.

End View.
Export View.

(** ** Sample worlds and tables *)

Module Samples.

(** A client whose every worksheet holds [data] (or raises it). *)
Definition sheet_client (data : result (list (list (string * cell)))) : Client :=
  mkClient (fun _ => Ok (mkSpreadsheet (fun _ => Ok (mkWorksheet data)))).

(** A client whose document has no worksheet of the asked name. *)
Definition no_sheet_client : Client :=
  mkClient (fun _ => Ok (mkSpreadsheet (fun name =>
    Raise (WorksheetNotFound name)))).

(** A world with a readable [credentials.json] and no secrets. *)
Definition file_world (authorized : result Client) : World :=
  {| os_path_exists := fun p => bool_decide (p = "credentials.json");
     st_secrets := None;
     from_service_account_file := fun p sc => Ok (mkCredentials p sc);
     from_service_account_info := fun _ sc => Ok (mkCredentials "secrets" sc);
     gspread_authorize := fun _ => authorized |}.

(** A world without [credentials.json], with the given secrets. *)
Definition secrets_world (kv : option (list (string * secret)))
    (authorized : result Client) : World :=
  {| os_path_exists := fun _ => false;
     st_secrets := kv;
     from_service_account_file := fun p sc => Ok (mkCredentials p sc);
     from_service_account_info := fun _ sc => Ok (mkCredentials "secrets" sc);
     gspread_authorize := fun _ => authorized |}.

Definition person (cluster : cell) (id : Z) (name dept : string) (hours : cell)
  : list (string * cell) :=
  [ ("클러스터", cluster); ("사번", CNum (Fin (inject_Z id)));
    ("이름", CStr name); ("부서명", CStr dept); ("누적시간", hours) ].

(** Scenario A of the spec: three rows, 누적시간 = "20", "", "15.5". *)
Definition scenario_A : list (list (string * cell)) :=
  [ person (CStr "A") 1 "Kim" "Dev" (CStr "20");
    person (CStr "B") 2 "Lee" "Ops" (CStr EmptyString);
    person (CStr "A") 3 "Park" "Dev" (CStr "15.5") ].

(** Scenario B of the spec: the sheet has no 부서명 column. *)
Definition scenario_B : list (list (string * cell)) :=
  [ [ ("클러스터", CStr "A"); ("사번", CNum (Fin 1)); ("이름", CStr "Kim");
      ("누적시간", CNum (Fin 20)) ];
    [ ("클러스터", CStr "B"); ("사번", CNum (Fin 2)); ("이름", CStr "Lee");
      ("누적시간", CNum (Fin 10)) ] ].

(** A sheet without the 클러스터 column. *)
Definition no_cluster : list (list (string * cell)) :=
  [ [ ("사번", CNum (Fin 1)); ("이름", CStr "Kim"); ("부서명", CStr "Dev");
      ("누적시간", CNum (Fin 20)) ] ].

(** A sheet without the 누적시간 column. *)
Definition no_hours : list (list (string * cell)) :=
  [ [ ("클러스터", CStr "A"); ("사번", CNum (Fin 1)); ("이름", CStr "Kim");
      ("부서명", CStr "Dev") ] ].

(** A sheet in which one cluster is itself named 전체. *)
Definition cluster_named_all : list (list (string * cell)) :=
  [ person (CStr "전체") 1 "Kim" "Dev" (CNum (Fin 20));
    person (CStr "A") 2 "Lee" "Ops" (CNum (Fin 10)) ].

(** A sheet whose only 클러스터 cell is the float [nan] (gspread reads a
    cell with the text nan as that float). *)
Definition cluster_nan : list (list (string * cell)) :=
  [ person (CNum NaN) 1 "Kim" "Dev" (CNum (Fin 20)) ].

(** A sheet with none of the wanted columns. *)
Definition unrelated : list (list (string * cell)) :=
  [ [ ("team", CStr "A"); ("hours", CNum (Fin 3)) ] ].

(** A sheet with one wanted column, 이름, and one column nobody asked
    for. *)
Definition unrelated_and_name : list (list (string * cell)) :=
  [ [ ("team", CStr "A"); ("이름", CStr "Kim") ] ].

(** A world whose credentials.json exists but is no service account. *)
Definition broken_file_world (e : exn) : World :=
  {| os_path_exists := fun p => bool_decide (p = "credentials.json");
     st_secrets := None;
     from_service_account_file := fun _ _ => Raise e;
     from_service_account_info := fun _ sc => Ok (mkCredentials "secrets" sc);
     gspread_authorize := fun _ => Ok no_sheet_client |}.

(** The reader of the sample sheets: plain decimal literals, and [nan] for
    any other text. *)
#[global] Instance decimal_reader : Reader :=
  fun s => match parse_float s with
           | Some q => Fin q
           | None => NaN
           end.

End Samples.

(** ** Notions of the further properties *)

Module Kinds.

(** The column [c] of a table, row by row. *)
Definition column (df : DataFrame) (c : string) : list cell :=
  map (fun r => cell_at r c) (rows df).

Definition is_str (c : cell) : bool :=
  match c with
  | CStr _ => true
  | CNum _ => false
  end.

(** Every cell is text ([k = true]) or every cell is a number
    ([k = false]). *)
Definition all_kind (k : bool) (l : list cell) : Prop :=
  Forall (fun c => is_str c = k) l.

(** [a] comes before [b]: [a < b] holds. *)
Definition before (a b : cell) : Prop := py_lt a b = Ok true.

(** One step of [sorted]: the next element goes into the sorted prefix. *)
Definition sort_step (acc : result (list cell)) (x : cell) : result (list cell) :=
  match acc with
  | Raise e => Raise e
  | Ok s => insert_sorted x s
  end.

End Kinds.
Export Kinds.

(** * Properties *)

(** ** The script monad *)

Section MonadLaws.
Context {A B : Type}.

Lemma bind_ret (a : A) (k : A -> M B) : bind (ret a) k = k a.
Proof. unfold bind, ret. destruct (k a) as [out r]. reflexivity. Qed.

Lemma bind_call_ok (a : A) (k : A -> M B) : bind (call (Ok a)) k = k a.
Proof. apply bind_ret. Qed.

Lemma bind_emit (ev : event) (k : unit -> M B) :
  bind (emit ev) k = after [ev] (k tt).
Proof. unfold bind, emit, after, output, outcome. destruct (k tt). reflexivity. Qed.

End MonadLaws.

Lemma after_after {A} (out1 out2 : list event) (m : M A) :
  after out1 (after out2 m) = after (out1 ++ out2) m.
Proof. unfold after. cbn [output outcome fst snd]. rewrite app_assoc. reflexivity. Qed.

Lemma bind_value {A B} (out : list event) (a : A) (k : A -> M B) :
  bind (out, Ok a) k = after out (k a).
Proof. unfold bind, after, output, outcome. destruct (k a). reflexivity. Qed.

(** ** Lists and rows *)

(** Refutes a closed decidable proposition by evaluating its decision. *)
Ltac refute_by_compute :=
  match goal with
  | |- ~ ?P => apply (bool_decide_eq_false_1 P); vm_compute; reflexivity
  end.

(** Settles a closed decidable proposition by evaluating its decision. *)
Ltac decide_by_compute :=
  match goal with
  | |- ?P => apply (bool_decide_eq_true_1 P); vm_compute; reflexivity
  end.

Lemma filter_nil_complement {A} (P : A -> Prop) `{!forall x, Decision (P x)}
    (l : list A) :
  filter P l = [] -> filter (fun x => ~ P x) l = l.
Proof.
  induction l as [|x l IH]; [reflexivity|].
  rewrite !filter_cons. destruct (decide (P x)) as [HP|HP]; [discriminate|].
  intros Hl. rewrite decide_True by exact HP. f_equal. auto.
Qed.

Lemma project_lookup (cols : list string) (r : gmap string cell) (c : string) :
  c ∈ cols -> project cols r !! c = Some (cell_at r c).
Proof.
  intros Hc. unfold project. apply elem_of_list_to_map_1'.
  - intros y Hy. apply list_elem_of_fmap in Hy as (c' & Heq & _).
    injection Heq as -> ->. reflexivity.
  - apply list_elem_of_fmap. exists c. split; [reflexivity | exact Hc].
Qed.

Lemma project_cell_at (cols : list string) (r : gmap string cell) (c : string) :
  c ∈ cols -> cell_at (project cols r) c = cell_at r c.
Proof. intros Hc. unfold cell_at at 1. rewrite project_lookup by exact Hc. reflexivity. Qed.

Lemma getitem_present (df : DataFrame) (c : string) :
  c ∈ columns df -> getitem df c = ret (map (fun r => cell_at r c) (rows df)).
Proof. intros Hc. unfold getitem. rewrite decide_True by exact Hc. reflexivity. Qed.

Lemma getitem_absent (df : DataFrame) (c : string) :
  c ∉ columns df -> getitem df c = raise (KeyError c).
Proof. intros Hc. unfold getitem. rewrite decide_False by exact Hc. reflexivity. Qed.

Lemma getitem_cols_present (df : DataFrame) (cols : list string) :
  (forall c, c ∈ cols -> c ∈ columns df) ->
  getitem_cols df cols
  = ret {| columns := cols; rows := map (project cols) (rows df) |}.
Proof.
  intros Hsub. unfold getitem_cols.
  destruct (filter (fun c => c ∉ columns df) cols) as [|c l] eqn:Hf; [reflexivity|].
  assert (Hc : c ∈ filter (fun c => c ∉ columns df) cols) by (rewrite Hf; left).
  apply list_elem_of_filter in Hc as [Hn Hc]. destruct Hn. auto.
Qed.

(** A mask computed from a column keeps the rows the test holds for. *)
Lemma getitem_mask_series_eq (df : DataFrame) (c : string) (v : cell) :
  rows (getitem_mask df (series_eq (map (fun r => cell_at r c) (rows df)) v))
  = filter (fun r => py_eq (cell_at r c) v = true) (rows df).
Proof.
  unfold getitem_mask, series_eq. cbn [rows]. generalize (rows df) as l.
  induction l as [|r l IH]; [reflexivity|].
  cbn [map zip zip_with]. rewrite !filter_cons. cbn [snd].
  destruct (decide (py_eq (cell_at r c) v = true)) as [H|H].
  - cbn [fmap list_fmap fst]. f_equal. exact IH.
  - exact IH.
Qed.

(** ** The two scripts share the loader and the column selection *)

Section Loading.
Context {reader : Reader}.

Lemma load_simple_data_same :
  StreamlitApp.load_simple_data = App.load_simple_data.
Proof. reflexivity. Qed.

Lemma available_columns_same :
  StreamlitApp.available_columns = App.available_columns.
Proof. reflexivity. Qed.

Lemma missing_columns_same :
  StreamlitApp.missing_columns = App.missing_columns.
Proof. reflexivity. Qed.

(** ** Column selection *)

(** C5: for every table, [available_columns] holds exactly the wanted
    columns that the table has, as an order-preserving sub-list of the fixed
    wanted list 클러스터, 사번, 이름, 부서명, 누적시간; [missing_columns]
    holds exactly the wanted columns the table lacks.  Both scripts. *)
Theorem available_columns_spec (df : DataFrame) :
  App.display_columns = ["클러스터"; "사번"; "이름"; "부서명"; "누적시간"]
  /\ (forall col, col ∈ App.available_columns df
                  <-> col ∈ App.display_columns /\ col ∈ columns df)
  /\ App.available_columns df `sublist_of` App.display_columns
  /\ (forall col, col ∈ App.missing_columns df
                  <-> col ∈ App.display_columns /\ col ∉ columns df)
  /\ StreamlitApp.display_columns = App.display_columns
  /\ StreamlitApp.available_columns df = App.available_columns df
  /\ StreamlitApp.missing_columns df = App.missing_columns df.
Proof.
  split; [reflexivity|].
  split.
  { intros col. unfold App.available_columns.
    rewrite list_elem_of_filter. tauto. }
  split; [apply sublist_filter|].
  split.
  { intros col. unfold App.missing_columns.
    rewrite list_elem_of_filter. tauto. }
  repeat split.
Qed.

(** ** Loading *)

Lemma load_simple_data_fetched (client : Client) (url name : string)
    (data : list (list (string * cell))) :
  fetch_records client url name = Ok data ->
  App.load_simple_data (Some client) url name = ([], Ok (loaded data)).
Proof.
  unfold fetch_records, App.load_simple_data, loaded. intros H.
  destruct (open_by_url client url) as [sp|]; [|discriminate].
  rewrite bind_call_ok.
  destruct (worksheet sp name) as [ws|]; [|discriminate].
  rewrite bind_call_ok, H, bind_call_ok.
  destruct (decide ("누적시간" ∈ columns (pd_DataFrame data))) as [Hc|Hc].
  - rewrite (getitem_present _ _ Hc). reflexivity.
  - reflexivity.
Qed.

Lemma load_simple_data_failed (client : Client) (url name : string) (e : exn) :
  fetch_records client url name = Raise e ->
  App.load_simple_data (Some client) url name
  = ([load_failure_report name e], Ok (pd_DataFrame [])).
Proof.
  unfold fetch_records, App.load_simple_data. intros H.
  destruct (open_by_url client url) as [sp|e1].
  - rewrite bind_call_ok. destruct (worksheet sp name) as [ws|e2].
    + rewrite bind_call_ok, H. destruct e; reflexivity.
    + injection H as ->. destruct e; reflexivity.
  - injection H as ->. destruct e; reflexivity.
Qed.

(** C6: [load_simple_data] never raises to its caller, and returns an
    empty table (a) without any report when the client is [None], (b) with
    the sheet-not-found report when the worksheet does not exist, (c) with
    the load-failure report on any other exception of the fetch. *)
Theorem load_simple_data_total :
  (forall client url name,
      exists out df, App.load_simple_data client url name = (out, Ok df))
  /\ (forall url name,
         App.load_simple_data None url name = ([], Ok (pd_DataFrame [])))
  /\ (forall client url name msg,
         fetch_records client url name = Raise (WorksheetNotFound msg) ->
         App.load_simple_data (Some client) url name
         = ([st_error ("'" ++ name ++ "' 시트를 찾을 수 없습니다. 시트 이름을 확인하세요.")],
            Ok (pd_DataFrame [])))
  /\ (forall client url name e,
         fetch_records client url name = Raise e ->
         (forall msg, e <> WorksheetNotFound msg) ->
         App.load_simple_data (Some client) url name
         = ([st_error ("시트 로드 중 오류 발생: " ++ str_exn e)],
            Ok (pd_DataFrame [])))
  /\ empty (pd_DataFrame []) = true.
Proof.
  split.
  { intros [client|] url name; [|eexists _, _; reflexivity].
    destruct (fetch_records client url name) as [data|e] eqn:H.
    - eexists _, _. apply load_simple_data_fetched, H.
    - eexists _, _. apply load_simple_data_failed, H. }
  split; [reflexivity|].
  split.
  { intros client url name msg H. apply (load_simple_data_failed _ _ _ _ H). }
  split; [|reflexivity].
  intros client url name e H Hne.
  rewrite (load_simple_data_failed _ _ _ _ H).
  destruct e; try reflexivity. destruct (Hne msg). reflexivity.
Qed.

End Loading.

Lemma load_simple_data_total_witness :
  App.load_simple_data (Some Samples.no_sheet_client) App.SHEET_URL "클러스터별"
  = ([st_error "'클러스터별' 시트를 찾을 수 없습니다. 시트 이름을 확인하세요."],
     Ok (pd_DataFrame [])).
Proof.
  apply (proj1 (proj2 (proj2 load_simple_data_total))
           Samples.no_sheet_client App.SHEET_URL "클러스터별" "클러스터별").
  reflexivity.
Defined.

(** ** Credential resolution *)

Lemma secrets_contains_some (w : World) (kv : list (string * secret)) (k : string) :
  st_secrets w = Some kv ->
  secrets_contains w k = ret (bool_decide (k ∈ kv.*1)).
Proof. intros Hkv. unfold secrets_contains. rewrite Hkv. reflexivity. Qed.

Lemma secrets_contains_nested (w : World) (sec : secret) :
  nested_secret w = Some sec ->
  secrets_contains w "gcp_service_account" = ret true.
Proof.
  unfold nested_secret. destruct (st_secrets w) as [kv|] eqn:Hkv; cbn; [|discriminate].
  intros Hl. rewrite (secrets_contains_some _ _ _ Hkv). f_equal. f_equal.
  apply bool_decide_eq_true_2. apply elem_of_list_to_map_2 in Hl.
  apply list_elem_of_fmap. exists ("gcp_service_account", sec). auto.
Qed.

Lemma secrets_contains_not_nested (w : World) :
  is_Some (st_secrets w) ->
  nested_secret w = None ->
  secrets_contains w "gcp_service_account" = ret false.
Proof.
  intros [kv Hkv]. unfold nested_secret. rewrite Hkv. cbn. intros Hl.
  rewrite (secrets_contains_some _ _ _ Hkv). f_equal. f_equal.
  apply bool_decide_eq_false_2.
  apply (not_elem_of_list_to_map (M := gmap string)), Hl.
Qed.

Lemma secrets_getitem_nested (w : World) (sec : secret) :
  nested_secret w = Some sec ->
  secrets_getitem w "gcp_service_account" = ret sec.
Proof.
  unfold secrets_getitem, nested_secret.
  destruct (st_secrets w) as [kv|]; cbn; [|discriminate].
  intros ->. reflexivity.
Qed.

Lemma authorize_with_result (w : World) (creds : Credentials) :
  match gspread_authorize w creds with
  | Ok client => App.authorize_with w creds = ([], Ok (Some client))
  | Raise e =>
      App.authorize_with w creds
      = ([st_error ("gspread 인증 중 오류 발생: " ++ str_exn e)], Ok None)
  end.
Proof.
  unfold App.authorize_with. destruct (gspread_authorize w creds); reflexivity.
Qed.

Lemma authorize_with_same : StreamlitApp.authorize_with = App.authorize_with.
Proof. reflexivity. Qed.

Ltac finish_authorize w creds :=
  pose proof (authorize_with_result w creds) as R;
  destruct (gspread_authorize w creds);
  rewrite ?bind_ret, ?bind_call_ok; first [exact R | rewrite R; reflexivity].

Section Resolution.
Context {reader : Reader}.

(** Building the credential is outside the [try]: when the file exists but
    cannot be read as a service account, the exception leaves the function. *)
Lemma unreadable_credentials_propagate (w : World) (e : exn) :
  os_path_exists w "credentials.json" = true ->
  from_service_account_file w "credentials.json" App.SCOPES = Raise e ->
  App.authorize_gspread w = ([], Raise e)
  /\ StreamlitApp.authorize_gspread w = ([], Raise e).
Proof.
  intros Hf He. unfold App.authorize_gspread, StreamlitApp.authorize_gspread.
  change App.SERVICE_ACCOUNT_FILE with "credentials.json".
  change StreamlitApp.SERVICE_ACCOUNT_FILE with "credentials.json".
  change StreamlitApp.SCOPES with App.SCOPES.
  rewrite Hf, He. split; reflexivity.
Qed.

Lemma app_resolves :
  resolves_credentials App.authorize_gspread App.page nested_secret
    App.SCOPES App.SHEET_URL
    [st_error "'credentials.json' 파일을 찾을 수 없거나 Streamlit Secrets가 설정되지 않았습니다."]
    (st_warning "Google Sheets 인증에 실패했습니다. 'credentials.json' 파일을 확인하세요.").
Proof.
  intros w authorized. subst authorized. unfold App.page, App.authorize_gspread.
  change App.SERVICE_ACCOUNT_FILE with "credentials.json".
  split; [|split].
  - intros -> creds ->. finish_authorize w creds.
  - intros -> sec creds Hsec Hinfo.
    rewrite (secrets_contains_nested _ _ Hsec), bind_ret.
    rewrite (secrets_getitem_nested _ _ Hsec), bind_ret, Hinfo.
    finish_authorize w creds.
  - intros -> Hsome Hsec.
    rewrite (secrets_contains_not_nested _ Hsome Hsec), !bind_ret.
    split; reflexivity.
Qed.

Lemma streamlit_app_resolves :
  resolves_credentials StreamlitApp.authorize_gspread StreamlitApp.page
    top_level_secret StreamlitApp.SCOPES StreamlitApp.SHEET_URL
    [st_error "인증 정보를 찾을 수 없습니다.";
     st_error "로컬에서는 'credentials.json' 파일이 필요하고, 배포 시에는 Streamlit Cloud의 'Secrets' 설정이 필요합니다."]
    (st_warning "Google Sheets 인증에 실패했습니다. (Secrets 설정 또는 로컬 파일 확인)").
Proof.
  intros w authorized. subst authorized.
  unfold StreamlitApp.page, StreamlitApp.authorize_gspread.
  change StreamlitApp.SERVICE_ACCOUNT_FILE with "credentials.json".
  rewrite authorize_with_same.
  split; [|split].
  - intros -> creds ->. finish_authorize w creds.
  - intros -> sec creds Hsec Hinfo. unfold top_level_secret in Hsec.
    destruct (st_secrets w) as [kv|] eqn:Hkv; [|discriminate].
    rewrite (secrets_contains_some _ _ _ Hkv), bind_ret. cbn in Hsec.
    destruct (bool_decide ("private_key" ∈ kv.*1)); [|discriminate].
    injection Hsec as <-. change (default [] (Some kv)) with kv. rewrite Hinfo.
    finish_authorize w creds.
  - intros -> [kv Hkv] Hsec. unfold top_level_secret in Hsec.
    rewrite Hkv in Hsec. cbn in Hsec.
    rewrite (secrets_contains_some _ _ _ Hkv), !bind_ret.
    destruct (bool_decide ("private_key" ∈ kv.*1)); [discriminate|].
    split; reflexivity.
Qed.

(** Credential resolution where the secrets can be read: the local file
    credentials.json first; only when the file is absent the environment
    secret; when the secrets hold no credential, no handle and the
    configuration hint, after which the page shows only the failure notice
    (no load, no filter, table or metric); when a source exists and
    authorization raises, no handle and the cause reported.  Both scripts,
    each with its own shape of the environment secret. *)
Lemma credential_resolution :
  resolves_credentials App.authorize_gspread App.page nested_secret
    App.SCOPES App.SHEET_URL
    [st_error "'credentials.json' 파일을 찾을 수 없거나 Streamlit Secrets가 설정되지 않았습니다."]
    (st_warning "Google Sheets 인증에 실패했습니다. 'credentials.json' 파일을 확인하세요.")
  /\ resolves_credentials StreamlitApp.authorize_gspread StreamlitApp.page
       top_level_secret StreamlitApp.SCOPES StreamlitApp.SHEET_URL
       [st_error "인증 정보를 찾을 수 없습니다.";
        st_error "로컬에서는 'credentials.json' 파일이 필요하고, 배포 시에는 Streamlit Cloud의 'Secrets' 설정이 필요합니다."]
       (st_warning "Google Sheets 인증에 실패했습니다. (Secrets 설정 또는 로컬 파일 확인)").
Proof. split; [exact app_resolves | exact streamlit_app_resolves]. Qed.

Lemma page_raises_at_authorize (w : World) (choice : nat) (e : exn) :
  App.authorize_gspread w = ([], Raise e) ->
  App.page w choice = (page_head App.SHEET_URL, Raise e).
Proof. intros H. unfold App.page. rewrite H. reflexivity. Qed.

Lemma streamlit_page_raises_at_authorize (w : World) (choice : nat) (e : exn) :
  StreamlitApp.authorize_gspread w = ([], Raise e) ->
  StreamlitApp.page w choice = (page_head StreamlitApp.SHEET_URL, Raise e).
Proof. intros H. unfold StreamlitApp.page. rewrite H. reflexivity. Qed.

(** C8 fails on the code where no secrets file exists: with neither
    credentials.json nor any secrets, the membership test on [st.secrets],
    which is outside the [try], raises [StreamlitSecretNotFoundError]; the
    exception leaves [authorize_gspread] and ends the page after its head,
    so no handle is returned, no configuration hint is reported and the
    failure notice of the page is not rendered.  Both scripts.  (Where the
    secrets can be read and hold no credential, the hint is reported:
    [credential_resolution].) *)
Theorem no_secrets_file_raises (w : World) (choice : nat) :
  os_path_exists w "credentials.json" = false ->
  st_secrets w = None ->
  exists msg,
    App.authorize_gspread w = ([], Raise (StreamlitSecretNotFoundError msg))
    /\ StreamlitApp.authorize_gspread w
       = ([], Raise (StreamlitSecretNotFoundError msg))
    /\ App.page w choice
       = (page_head App.SHEET_URL, Raise (StreamlitSecretNotFoundError msg))
    /\ StreamlitApp.page w choice
       = (page_head StreamlitApp.SHEET_URL,
          Raise (StreamlitSecretNotFoundError msg))
    /\ (forall ev, ev ∈ output (App.page w choice) ->
                   ev ∈ page_head App.SHEET_URL)
    /\ (forall ev, ev ∈ output (StreamlitApp.page w choice) ->
                   ev ∈ page_head StreamlitApp.SHEET_URL).
Proof.
  intros Hf Hs.
  assert (H1 : App.authorize_gspread w = ([], Raise no_secrets)).
  { unfold App.authorize_gspread, secrets_contains.
    change App.SERVICE_ACCOUNT_FILE with "credentials.json".
    rewrite Hf, Hs. reflexivity. }
  assert (H2 : StreamlitApp.authorize_gspread w = ([], Raise no_secrets)).
  { unfold StreamlitApp.authorize_gspread, secrets_contains.
    change StreamlitApp.SERVICE_ACCOUNT_FILE with "credentials.json".
    rewrite Hf, Hs. reflexivity. }
  eexists. split; [exact H1|]. split; [exact H2|].
  rewrite (page_raises_at_authorize _ _ _ H1).
  rewrite (streamlit_page_raises_at_authorize _ _ _ H2).
  repeat split; auto.
Qed.

End Resolution.

Lemma no_secrets_file_raises_witness :
  exists msg,
    App.authorize_gspread (Samples.secrets_world None (Ok Samples.no_sheet_client))
    = ([], Raise (StreamlitSecretNotFoundError msg))
    /\ StreamlitApp.authorize_gspread
         (Samples.secrets_world None (Ok Samples.no_sheet_client))
       = ([], Raise (StreamlitSecretNotFoundError msg))
    /\ App.page (Samples.secrets_world None (Ok Samples.no_sheet_client)) 0
       = (page_head App.SHEET_URL, Raise (StreamlitSecretNotFoundError msg))
    /\ StreamlitApp.page (Samples.secrets_world None (Ok Samples.no_sheet_client)) 0
       = (page_head StreamlitApp.SHEET_URL,
          Raise (StreamlitSecretNotFoundError msg))
    /\ (forall ev,
           ev ∈ output (App.page
                          (Samples.secrets_world None (Ok Samples.no_sheet_client)) 0) ->
           ev ∈ page_head App.SHEET_URL)
    /\ (forall ev,
           ev ∈ output (StreamlitApp.page
                          (Samples.secrets_world None (Ok Samples.no_sheet_client)) 0) ->
           ev ∈ page_head StreamlitApp.SHEET_URL).
Proof.
  apply (no_secrets_file_raises
           (Samples.secrets_world None (Ok Samples.no_sheet_client)) 0);
    reflexivity.
Defined.

(** With a secrets file that holds no credential, the hint is reported. *)
Example empty_secrets_report_the_hint :
  App.authorize_gspread (Samples.secrets_world (Some []) (Ok Samples.no_sheet_client))
  = ([st_error "'credentials.json' 파일을 찾을 수 없거나 Streamlit Secrets가 설정되지 않았습니다."],
     Ok None).
Proof.
  apply (proj1 credential_resolution
           (Samples.secrets_world (Some []) (Ok Samples.no_sheet_client)));
    [reflexivity | eexists; reflexivity | reflexivity].
Qed.

(** ** The page without usable columns or rows *)

(** C7: for every non-empty table with none of the wanted columns, the
    view composer warns about the five missing columns, emits the
    no-requested-column error and stops: no filter control, no table, no
    metric.  Both scripts. *)
Theorem no_wanted_column_stops (df : DataFrame) (choice : nat) :
  empty df = false ->
  App.available_columns df = [] ->
  App.view_composer df choice
  = ([st_warning "시트에서 다음 컬럼을 찾을 수 없습니다: 클러스터, 사번, 이름, 부서명, 누적시간";
      st_error "요청하신 컬럼이 시트에 하나도 존재하지 않습니다. 'RAW' 시트의 헤더를 확인하세요."],
     Ok tt)
  /\ StreamlitApp.view_composer df choice
     = ([st_warning "시트에서 다음 컬럼을 찾을 수 없습니다: 클러스터, 사번, 이름, 부서명, 누적시간";
         st_error "요청하신 컬럼이 시트에 하나도 존재하지 않습니다. '클러스터별' 시트의 헤더를 확인하세요."],
        Ok tt)
  /\ filter (fun ev => is_view_event ev = true)
            (output (App.view_composer df choice)) = []
  /\ filter (fun ev => is_view_event ev = true)
            (output (StreamlitApp.view_composer df choice)) = [].
Proof.
  intros He Ha.
  assert (Hm : App.missing_columns df = App.display_columns)
    by (apply filter_nil_complement, Ha).
  assert (E1 : App.view_composer df choice
               = ([st_warning "시트에서 다음 컬럼을 찾을 수 없습니다: 클러스터, 사번, 이름, 부서명, 누적시간";
                   st_error "요청하신 컬럼이 시트에 하나도 존재하지 않습니다. 'RAW' 시트의 헤더를 확인하세요."],
                  Ok tt)).
  { unfold App.view_composer. rewrite He. cbn [negb]. cbv zeta.
    rewrite Ha, Hm. reflexivity. }
  assert (E2 : StreamlitApp.view_composer df choice
               = ([st_warning "시트에서 다음 컬럼을 찾을 수 없습니다: 클러스터, 사번, 이름, 부서명, 누적시간";
                   st_error "요청하신 컬럼이 시트에 하나도 존재하지 않습니다. '클러스터별' 시트의 헤더를 확인하세요."],
                  Ok tt)).
  { unfold StreamlitApp.view_composer. rewrite He. cbn [negb]. cbv zeta.
    rewrite available_columns_same, missing_columns_same, Ha, Hm. reflexivity. }
  rewrite E1, E2. repeat split.
Qed.

Lemma no_wanted_column_stops_witness :
  App.view_composer (pd_DataFrame Samples.unrelated) 0
  = ([st_warning "시트에서 다음 컬럼을 찾을 수 없습니다: 클러스터, 사번, 이름, 부서명, 누적시간";
      st_error "요청하신 컬럼이 시트에 하나도 존재하지 않습니다. 'RAW' 시트의 헤더를 확인하세요."],
     Ok tt).
Proof.
  apply (no_wanted_column_stops (pd_DataFrame Samples.unrelated) 0);
    vm_compute; reflexivity.
Defined.

Section EmptyTable.
Context {reader : Reader}.

(** C10 (as amended): every empty table that reaches the view composer is
    rendered by it as the one failed-to-load-or-no-data error, after which
    nothing else is rendered; the composer's output does not depend on why
    the table is empty.  On a failed fetch the loader's own report precedes
    that error on the page; on a successful fetch of zero records nothing
    does. *)
Theorem empty_table_one_error :
  (forall df choice,
      empty df = true ->
      App.view_composer df choice
      = ([st_error "'RAW' 시트에서 데이터를 불러오는 데 실패했거나 데이터가 없습니다."], Ok tt)
      /\ StreamlitApp.view_composer df choice
         = ([st_error "'클러스터별' 시트에서 데이터를 불러오는 데 실패했거나 데이터가 없습니다."],
            Ok tt))
  /\ (forall client url name choice e,
         fetch_records client url name = Raise e ->
         bind (App.load_simple_data (Some client) url name)
              (fun df_raw => App.view_composer df_raw choice)
         = ([load_failure_report name e;
             st_error "'RAW' 시트에서 데이터를 불러오는 데 실패했거나 데이터가 없습니다."],
            Ok tt))
  /\ (forall client url name choice,
         fetch_records client url name = Ok [] ->
         bind (App.load_simple_data (Some client) url name)
              (fun df_raw => App.view_composer df_raw choice)
         = ([st_error "'RAW' 시트에서 데이터를 불러오는 데 실패했거나 데이터가 없습니다."],
            Ok tt)).
Proof.
  split; [|split].
  - intros df choice He.
    unfold App.view_composer, StreamlitApp.view_composer. rewrite He.
    split; reflexivity.
  - intros client url name choice e H.
    rewrite (load_simple_data_failed _ _ _ _ H). reflexivity.
  - intros client url name choice H.
    rewrite (load_simple_data_fetched _ _ _ _ H). reflexivity.
Qed.

End EmptyTable.

Lemma empty_table_one_error_witness :
  App.view_composer (pd_DataFrame []) 0
  = ([st_error "'RAW' 시트에서 데이터를 불러오는 데 실패했거나 데이터가 없습니다."], Ok tt).
Proof.
  apply (proj1 empty_table_one_error (pd_DataFrame []) 0). reflexivity.
Defined.

(** C10 as stated fails: a load failure and a successful load of zero
    records give different pages, since the loader reports the failure. *)
Lemma load_failure_is_visible :
  App.page (Samples.file_world (Ok Samples.no_sheet_client)) 0
  = ((page_head App.SHEET_URL
      ++ [st_error "'클러스터별' 시트를 찾을 수 없습니다. 시트 이름을 확인하세요.";
          st_error "'RAW' 시트에서 데이터를 불러오는 데 실패했거나 데이터가 없습니다."])%list,
     Ok tt)
  /\ App.page (Samples.file_world (Ok (Samples.sheet_client (Ok [])))) 0
     = ((page_head App.SHEET_URL
         ++ [st_error "'RAW' 시트에서 데이터를 불러오는 데 실패했거나 데이터가 없습니다."])%list,
        Ok tt)
  /\ output (App.page (Samples.file_world (Ok Samples.no_sheet_client)) 0)
     <> output (App.page (Samples.file_world (Ok (Samples.sheet_client (Ok [])))) 0).
Proof.
  split; [reflexivity|]. split; [reflexivity|].
  vm_compute. discriminate.
Qed.

(** ** Coercion of the accumulated-time column *)

Section Coercion.
Context {reader : Reader}.

Lemma fill_to_numeric (v : option cell) :
  match to_numeric1 (default (CNum NaN) v) with
  | NaN => Fin 0
  | Fin q => to_numeric1 (default (CNum NaN) v)
  | Inf s => to_numeric1 (default (CNum NaN) v)
  end = coerced v.
Proof.
  destruct v as [[s|[q| |b]]|]; cbn; try reflexivity.
  destruct (read_text s); reflexivity.
Qed.

Lemma coerced_not_nan (v : option cell) : coerced v <> NaN.
Proof.
  destruct v as [[s|[q| |b]]|]; cbn; try discriminate.
  destruct (read_text s); discriminate.
Qed.

Lemma loaded_columns (data : list (list (string * cell))) :
  columns (loaded data) = columns (pd_DataFrame data).
Proof.
  unfold loaded. destruct (decide _) as [Hc|Hc]; [|reflexivity].
  unfold setitem. cbn [columns]. rewrite decide_True by exact Hc. reflexivity.
Qed.

(** Row [i] of the loaded table holds, under 누적시간, the coerced value of
    record [i]. *)
Lemma loaded_coerced (data : list (list (string * cell))) (i : nat)
    (rec : list (string * cell)) :
  "누적시간" ∈ columns (loaded data) ->
  data !! i = Some rec ->
  exists r, rows (loaded data) !! i = Some r
            /\ r !! "누적시간"
               = Some (CNum (coerced
                   ((list_to_map rec : gmap string cell) !! "누적시간"))).
Proof.
  rewrite loaded_columns. intros Hc Hi. unfold loaded.
  rewrite decide_True by exact Hc.
  set (cols := columns (pd_DataFrame data)) in *.
  set (m := (list_to_map rec : gmap string cell)).
  exists (<["누적시간" := CNum (coerced (m !! "누적시간"))]> (project cols m)).
  split; [|apply lookup_insert_eq].
  unfold setitem, fillna, to_numeric. cbn [rows].
  rewrite lookup_zip_with.
  assert (Hrow : rows (pd_DataFrame data) !! i = Some (project cols m)).
  { unfold pd_DataFrame. cbn [rows]. rewrite list_lookup_fmap, Hi. reflexivity. }
  rewrite Hrow. cbn [mbind option_bind].
  rewrite !list_lookup_fmap, Hrow. cbn [fmap option_fmap option_map mbind option_bind].
  rewrite (project_cell_at _ _ _ Hc). unfold cell_at.
  rewrite fill_to_numeric. reflexivity.
Qed.

(** C1: the 누적시간 column of every loaded table is coerced row by row,
    whatever texts pandas reads as numbers: a number stays, a text that
    reads as a number is that number, and a text that does not read as a
    number, a [nan] or an absent value is 0, so that no loaded value is
    [nan].  Where "abc" and the empty string do not read as numbers and
    "12.5" reads as 12.5, they give 0, 0 and 12.5; where moreover "20" and
    "15.5" read as 20 and 15.5, the three rows "20", "", "15.5" give the
    column [20, 0, 15.5], whose mean is 71/6, within 0.05 of 11.8, and the
    metric reads 11.8.  Both scripts. *)
Theorem accumulated_time_coerced :
  (forall client url name data,
      fetch_records client url name = Ok data ->
      exists df,
        App.load_simple_data (Some client) url name = ([], Ok df)
        /\ StreamlitApp.load_simple_data (Some client) url name = ([], Ok df)
        /\ forall i rec,
            "누적시간" ∈ columns df ->
            data !! i = Some rec ->
            exists r, rows df !! i = Some r
                      /\ r !! "누적시간"
                         = Some (CNum (coerced
                             ((list_to_map rec : gmap string cell) !! "누적시간"))))
  /\ (forall v, coerced v <> NaN)
  /\ (forall s, read_text s = NaN -> coerced (Some (CStr s)) = Fin 0)
  /\ (forall s, read_text s <> NaN -> coerced (Some (CStr s)) = read_text s)
  /\ (forall x, x <> NaN -> coerced (Some (CNum x)) = x)
  /\ coerced (Some (CNum NaN)) = Fin 0
  /\ coerced None = Fin 0
  /\ (read_text "abc" = NaN ->
      read_text EmptyString = NaN ->
      read_text "12.5" = Fin (25 # 2) ->
      fillna 0 (to_numeric [CStr "abc"; CStr EmptyString; CNum NaN; CStr "12.5"])
      = [Fin 0; Fin 0; Fin 0; Fin (25 # 2)])
  /\ (read_text "20" = Fin 20 ->
      read_text EmptyString = NaN ->
      read_text "15.5" = Fin (31 # 2) ->
      exists df,
        App.load_simple_data (Some (Samples.sheet_client (Ok Samples.scenario_A)))
          App.SHEET_URL "클러스터별" = ([], Ok df)
        /\ StreamlitApp.load_simple_data
             (Some (Samples.sheet_client (Ok Samples.scenario_A)))
             StreamlitApp.SHEET_URL "클러스터별" = ([], Ok df)
        /\ getitem df "누적시간"
           = ([], Ok [CNum (Fin 20); CNum (Fin 0); CNum (Fin (31 # 2))])
        /\ App.avg_hours df = ([], Ok (Fin (71 # 6)))
        /\ (Qabs ((71 # 6) - (118 # 10)) < 5 # 100)%Q
        /\ format_1f (Fin (71 # 6)) = "11.8").
Proof.
  split.
  { intros client url name data H. exists (loaded data).
    rewrite (@load_simple_data_same reader).
    split; [apply load_simple_data_fetched, H|].
    split; [apply load_simple_data_fetched, H|].
    intros i rec Hc Hi. apply loaded_coerced; assumption. }
  split; [exact coerced_not_nan|].
  split; [intros s Hs; cbn; rewrite Hs; reflexivity|].
  split; [intros s Hs; cbn; destruct (read_text s); congruence|].
  split; [intros [q| |b] Hx; cbn; congruence|].
  split; [reflexivity|]. split; [reflexivity|].
  split.
  { intros Ha He Hn. cbn. rewrite Ha, He, Hn. reflexivity. }
  intros H20 He H15. exists (loaded Samples.scenario_A).
  rewrite (@load_simple_data_same reader).
  split; [apply load_simple_data_fetched; reflexivity|].
  split; [apply load_simple_data_fetched; reflexivity|].
  assert (Hcol : getitem (loaded Samples.scenario_A) "누적시간"
                 = ([], Ok [CNum (Fin 20); CNum (Fin 0); CNum (Fin (31 # 2))])).
  { unfold read_text in H20, He, H15. vm_compute. rewrite H20, He, H15.
    reflexivity. }
  split; [exact Hcol|].
  split; [unfold App.avg_hours; rewrite Hcol; vm_compute; reflexivity|].
  split; [reflexivity | vm_compute; reflexivity].
Qed.

End Coercion.

Lemma accumulated_time_coerced_witness :
  exists df,
    App.load_simple_data (Some (Samples.sheet_client (Ok Samples.scenario_A)))
      App.SHEET_URL "클러스터별" = ([], Ok df)
    /\ StreamlitApp.load_simple_data
         (Some (Samples.sheet_client (Ok Samples.scenario_A)))
         StreamlitApp.SHEET_URL "클러스터별" = ([], Ok df)
    /\ getitem df "누적시간"
       = ([], Ok [CNum (Fin 20); CNum (Fin 0); CNum (Fin (31 # 2))])
    /\ App.avg_hours df = ([], Ok (Fin (71 # 6)))
    /\ (Qabs ((71 # 6) - (118 # 10)) < 5 # 100)%Q
    /\ format_1f (Fin (71 # 6)) = "11.8".
Proof.
  apply (proj2 (proj2 (proj2 (proj2 (proj2 (proj2 (proj2 (proj2
           (@accumulated_time_coerced Samples.decimal_reader)))))))));
    reflexivity.
Defined.

(** ** The filter *)

Lemma available_in_columns (df : DataFrame) (c : string) :
  c ∈ App.available_columns df -> c ∈ columns df.
Proof. unfold App.available_columns. rewrite list_elem_of_filter. tauto. Qed.

Lemma py_eq_str (s t : string) : py_eq (CStr s) (CStr t) = true <-> s = t.
Proof. cbn. apply bool_decide_eq_true. Qed.

Lemma df_display_all (df : DataFrame) :
  App.df_display df (App.available_columns df) (CStr "전체")
  = ([], Ok {| columns := App.available_columns df;
               rows := project (App.available_columns df) <$> rows df |}).
Proof.
  unfold App.df_display. cbn [py_eq]. rewrite bool_decide_eq_true_2 by reflexivity.
  apply getitem_cols_present, available_in_columns.
Qed.

Lemma df_display_one (df : DataFrame) (selected_cluster : cell) :
  py_eq selected_cluster (CStr "전체") = false ->
  "클러스터" ∈ columns df ->
  App.df_display df (App.available_columns df) selected_cluster
  = ([], Ok {| columns := App.available_columns df;
               rows := project (App.available_columns df)
                         <$> filter (fun r => py_eq (cell_at r "클러스터")
                                                    selected_cluster = true)
                                    (rows df) |}).
Proof.
  intros Hsel Hc. unfold App.df_display. rewrite Hsel.
  rewrite (getitem_present _ _ Hc), bind_ret.
  rewrite getitem_cols_present by (intros c; apply available_in_columns).
  rewrite getitem_mask_series_eq. reflexivity.
Qed.

(** C2 (as amended): for every table, selecting the sentinel 전체 applies
    no row restriction, so the displayed rows are all rows of the table
    projected onto the available columns and their count is the table's row
    count; selecting any value other than 전체 keeps exactly the rows whose
    클러스터 cell equals it, and on strings that equality is exact and
    case-sensitive.  Both scripts. *)
Theorem filter_selection (df : DataFrame) (selected_cluster : cell) :
  (selected_cluster = CStr "전체" ->
   exists d,
     App.df_display df (App.available_columns df) selected_cluster = ([], Ok d)
     /\ rows d = project (App.available_columns df) <$> rows df
     /\ length (rows d) = length (rows df))
  /\ (py_eq selected_cluster (CStr "전체") = false ->
      "클러스터" ∈ columns df ->
      exists d,
        App.df_display df (App.available_columns df) selected_cluster = ([], Ok d)
        /\ rows d
           = project (App.available_columns df)
               <$> filter (fun r => py_eq (cell_at r "클러스터")
                                          selected_cluster = true)
                          (rows df))
  /\ (forall s t, py_eq (CStr s) (CStr t) = true <-> s = t)
  /\ py_eq (CStr "a") (CStr "A") = false
  /\ StreamlitApp.df_display = App.df_display.
Proof.
  split.
  { intros ->. eexists. split; [apply df_display_all|].
    cbn [rows]. split; [reflexivity | apply length_fmap]. }
  split.
  { intros Hsel Hc. eexists. split; [apply df_display_one; assumption|].
    reflexivity. }
  split; [exact py_eq_str|]. split; reflexivity.
Qed.

Lemma filter_selection_witness :
  exists d,
    App.df_display (pd_DataFrame Samples.scenario_A)
      (App.available_columns (pd_DataFrame Samples.scenario_A)) (CStr "A")
    = ([], Ok d)
    /\ rows d
       = project (App.available_columns (pd_DataFrame Samples.scenario_A))
           <$> filter (fun r => py_eq (cell_at r "클러스터") (CStr "A") = true)
                      (rows (pd_DataFrame Samples.scenario_A)).
Proof.
  apply (proj1 (proj2 (filter_selection (pd_DataFrame Samples.scenario_A) (CStr "A")))).
  - reflexivity.
  - decide_by_compute.
Defined.

(** C2 as stated fails when a cluster is itself named 전체: that value is
    one of the categories on offer, two rows are displayed on selecting it,
    yet only one row has it in its 클러스터 cell. *)
Lemma category_named_all_is_not_filtered :
  App.all_clusters (pd_DataFrame Samples.cluster_named_all)
  = ([], Ok [CStr "전체"; CStr "A"; CStr "전체"])
  /\ chosen [CStr "전체"; CStr "A"; CStr "전체"] 2 = CStr "전체"
  /\ (exists d,
        App.df_display (pd_DataFrame Samples.cluster_named_all)
          (App.available_columns (pd_DataFrame Samples.cluster_named_all))
          (CStr "전체") = ([], Ok d)
        /\ length (rows d) = 2)
  /\ length (filter (fun r => py_eq (cell_at r "클러스터") (CStr "전체") = true)
                    (rows (pd_DataFrame Samples.cluster_named_all))) = 1.
Proof.
  split; [vm_compute; reflexivity|]. split; [reflexivity|].
  split; [|vm_compute; reflexivity].
  eexists. split; [apply df_display_all|]. reflexivity.
Qed.

(** ** The view composer on tables it can show *)

Lemma bind_selectbox {B} (label : string) (options : list cell) (choice : nat)
    (k : cell -> M B) :
  bind (selectbox label options choice) k
  = after [st_sidebar_selectbox label options] (k (chosen options choice)).
Proof. apply bind_value. Qed.

Lemma bind_unit {B} (m : M unit) (k : M B) (out : list event) :
  m = (out, Ok tt) -> bind m (fun _ => k) = after out k.
Proof. intros ->. apply bind_value. Qed.

Lemma list_case_cons {A B} (l : list A) (x y : B) :
  l <> [] -> match l with [] => y | _ :: _ => x end = x.
Proof. destruct l; [congruence | reflexivity]. Qed.

Lemma warn_missing (df : DataFrame) :
  match App.missing_columns df with
  | [] => ret tt
  | _ :: _ =>
      emit (st_warning ("시트에서 다음 컬럼을 찾을 수 없습니다: "
                          ++ String.concat ", " (App.missing_columns df)))
  end = (missing_warning df, Ok tt).
Proof. unfold missing_warning. destruct (App.missing_columns df); reflexivity. Qed.

Lemma available_elem (df : DataFrame) (c : string) :
  c ∈ App.display_columns -> c ∈ columns df -> c ∈ App.available_columns df.
Proof. intros. unfold App.available_columns. rewrite list_elem_of_filter. tauto. Qed.

Lemma available_nonempty (df : DataFrame) (c : string) :
  c ∈ App.available_columns df -> App.available_columns df <> [].
Proof. intros Hc E. rewrite E in Hc. inversion Hc. Qed.

Lemma df_display_shown (df : DataFrame) (selected_cluster : cell) :
  "클러스터" ∈ columns df ->
  App.df_display df (App.available_columns df) selected_cluster
  = ret (shown df selected_cluster).
Proof.
  intros Hc. unfold shown, kept_rows.
  destruct (py_eq selected_cluster (CStr "전체")) eqn:Hsel.
  - unfold App.df_display. rewrite Hsel.
    apply getitem_cols_present, available_in_columns.
  - apply df_display_one; assumption.
Qed.

(** The run of the composer on a table that has the filter column: the
    controls and the table are rendered, then the metric is computed. *)
Lemma view_composer_table (df : DataFrame) (choice : nat) (opts : list cell) :
  empty df = false ->
  "클러스터" ∈ columns df ->
  sorted (unique (map (fun r => cell_at r "클러스터") (rows df))) = Ok opts ->
  App.view_composer df choice
  = after (missing_warning df
             ++ [ st_header "RAW 데이터"; st_sidebar_header "필터";
                  st_sidebar_selectbox "클러스터 선택:" (CStr "전체" :: opts);
                  st_dataframe (shown df (chosen (CStr "전체" :: opts) choice));
                  st_header "간단 요약" ])
      (avg_hours <- App.avg_hours (shown df (chosen (CStr "전체" :: opts) choice));;;
       emit (st_metric "평균 누적 시간" (format_1f avg_hours ++ " 시간"))).
Proof.
  intros He Hc Hsorted.
  assert (Hne : App.available_columns df <> []).
  { apply (available_nonempty _ "클러스터"), available_elem; [decide_by_compute | exact Hc]. }
  unfold App.view_composer. rewrite He. cbn [negb]. cbv zeta.
  rewrite (bind_unit _ _ _ (warn_missing df)).
  rewrite (list_case_cons _ _ _ Hne).
  rewrite !bind_emit.
  unfold App.all_clusters.
  rewrite (getitem_present _ _ Hc), !bind_ret, Hsorted, bind_call_ok, bind_ret.
  rewrite bind_selectbox.
  rewrite (df_display_shown _ _ Hc), bind_ret.
  rewrite !bind_emit, !after_after, <- !app_assoc. reflexivity.
Qed.

Lemma view_composer_same (df : DataFrame) (choice : nat) :
  empty df = false ->
  App.available_columns df <> [] ->
  StreamlitApp.view_composer df choice = App.view_composer df choice.
Proof.
  intros He Hne. unfold StreamlitApp.view_composer, App.view_composer.
  rewrite He. cbn [negb]. cbv zeta.
  change StreamlitApp.available_columns with App.available_columns.
  destruct (App.available_columns df); [congruence | reflexivity].
Qed.

Lemma avg_hours_present (d : DataFrame) :
  "누적시간" ∈ columns d ->
  App.avg_hours d = mean (map (fun r => cell_at r "누적시간") (rows d)).
Proof.
  intros Hc. unfold App.avg_hours. rewrite (getitem_present _ _ Hc). apply bind_ret.
Qed.

Lemma avg_hours_absent (d : DataFrame) :
  "누적시간" ∉ columns d -> App.avg_hours d = raise (KeyError "누적시간").
Proof.
  intros Hc. unfold App.avg_hours. rewrite (getitem_absent _ _ Hc). reflexivity.
Qed.

(** Without the 클러스터 column the composer raises at the filter. *)
Lemma view_composer_without_cluster (df : DataFrame) (choice : nat) :
  empty df = false ->
  App.available_columns df <> [] ->
  "클러스터" ∉ columns df ->
  App.view_composer df choice
  = ((missing_warning df ++ [st_header "RAW 데이터"; st_sidebar_header "필터"])%list,
     Raise (KeyError "클러스터")).
Proof.
  intros He Hne Hc. unfold App.view_composer. rewrite He. cbn [negb]. cbv zeta.
  rewrite (bind_unit _ _ _ (warn_missing df)).
  rewrite (list_case_cons _ _ _ Hne).
  rewrite !bind_emit. unfold App.all_clusters.
  rewrite (getitem_absent _ _ Hc). cbn [bind raise].
  rewrite !after_after. unfold after. cbn [output outcome fst snd].
  rewrite app_nil_r, <- app_assoc. reflexivity.
Qed.

(** Without the 누적시간 column the composer renders the table and then
    raises at the metric. *)
Lemma view_composer_without_hours (df : DataFrame) (choice : nat)
    (opts : list cell) :
  empty df = false ->
  "클러스터" ∈ columns df ->
  "누적시간" ∉ columns df ->
  sorted (unique (map (fun r => cell_at r "클러스터") (rows df))) = Ok opts ->
  App.view_composer df choice
  = ((missing_warning df
      ++ [ st_header "RAW 데이터"; st_sidebar_header "필터";
           st_sidebar_selectbox "클러스터 선택:" (CStr "전체" :: opts);
           st_dataframe (shown df (chosen (CStr "전체" :: opts) choice));
           st_header "간단 요약" ])%list,
     Raise (KeyError "누적시간")).
Proof.
  intros He Hc Hh Hsorted. rewrite (view_composer_table _ _ _ He Hc Hsorted).
  rewrite avg_hours_absent.
  - unfold after. cbn. rewrite app_nil_r. reflexivity.
  - cbn [shown columns]. intros Hin. apply Hh, available_in_columns, Hin.
Qed.

(** Whenever the filter keeps no row of a table that has the 클러스터 and
    누적시간 columns, the composer does not raise: it renders the empty
    table, and the metric reads "nan 시간".  Both scripts. *)
Lemma empty_selection_shows_nan (df : DataFrame) (choice : nat)
    (opts : list cell) :
  empty df = false ->
  "클러스터" ∈ columns df ->
  "누적시간" ∈ columns df ->
  sorted (unique (map (fun r => cell_at r "클러스터") (rows df))) = Ok opts ->
  kept_rows df (chosen (CStr "전체" :: opts) choice) = [] ->
  App.view_composer df choice
  = ((missing_warning df
      ++ [ st_header "RAW 데이터"; st_sidebar_header "필터";
           st_sidebar_selectbox "클러스터 선택:" (CStr "전체" :: opts);
           st_dataframe {| columns := App.available_columns df; rows := [] |};
           st_header "간단 요약";
           st_metric "평균 누적 시간" "nan 시간" ])%list,
     Ok tt)
  /\ StreamlitApp.view_composer df choice = App.view_composer df choice.
Proof.
  intros He Hc Hh Hsorted Hkept.
  assert (Hc' : "클러스터" ∈ App.available_columns df)
    by (apply available_elem; [decide_by_compute | exact Hc]).
  split; [|apply view_composer_same; eauto using available_nonempty].
  rewrite (view_composer_table _ _ _ He Hc Hsorted).
  unfold shown. rewrite Hkept. cbn [fmap list_fmap].
  rewrite avg_hours_present
    by (cbn [columns]; apply available_elem; [decide_by_compute | exact Hh]).
  cbn [rows map mean numeric_values]. rewrite bind_ret.
  unfold after, emit. cbn [output outcome fst snd].
  rewrite <- app_assoc. reflexivity.
Qed.

Example empty_selection_on_nan_category :
  App.view_composer (pd_DataFrame Samples.cluster_nan) 1
  = ([ st_header "RAW 데이터"; st_sidebar_header "필터";
       st_sidebar_selectbox "클러스터 선택:" [CStr "전체"; CNum NaN];
       st_dataframe {| columns := App.display_columns; rows := [] |};
       st_header "간단 요약";
       st_metric "평균 누적 시간" "nan 시간" ],
     Ok tt).
Proof.
  apply (empty_selection_shows_nan (pd_DataFrame Samples.cluster_nan) 1 [CNum NaN]).
  - reflexivity.
  - decide_by_compute.
  - decide_by_compute.
  - reflexivity.
  - reflexivity.
Defined.

Section MissingGuards.
Context {reader : Reader}.

(** C3 fails on the code: an empty sheet gets the explicit no-data error,
    but on a sheet whose only 클러스터 cell is [nan], selecting that
    category keeps no row, and the page shows the metric "nan 시간".  Both
    scripts. *)
Theorem empty_selection_page_shows_nan :
  App.page (Samples.file_world
              (Ok (Samples.sheet_client (Ok Samples.cluster_nan)))) 1
  = ((page_head App.SHEET_URL
      ++ [ st_header "RAW 데이터"; st_sidebar_header "필터";
           st_sidebar_selectbox "클러스터 선택:" [CStr "전체"; CNum NaN];
           st_dataframe {| columns := App.display_columns; rows := [] |};
           st_header "간단 요약";
           st_metric "평균 누적 시간" "nan 시간" ])%list,
     Ok tt)
  /\ StreamlitApp.page (Samples.file_world
                          (Ok (Samples.sheet_client (Ok Samples.cluster_nan)))) 1
     = App.page (Samples.file_world
                   (Ok (Samples.sheet_client (Ok Samples.cluster_nan)))) 1
  /\ App.page (Samples.file_world (Ok (Samples.sheet_client (Ok [])))) 1
     = ((page_head App.SHEET_URL
         ++ [st_error "'RAW' 시트에서 데이터를 불러오는 데 실패했거나 데이터가 없습니다."])%list,
        Ok tt).
Proof. repeat split; vm_compute; reflexivity. Qed.

(** ** Missing filter or metric column *)

(** C4 fails on the code: on a sheet without the 클러스터 column the page
    raises [KeyError] right after the warning and renders no table; on a
    sheet without the 누적시간 column it renders the table and then raises
    [KeyError] instead of the metric.  Both scripts. *)
Theorem missing_filter_or_metric_column_raises :
  App.page (Samples.file_world
              (Ok (Samples.sheet_client (Ok Samples.no_cluster)))) 0
  = ((page_head App.SHEET_URL
      ++ [ st_warning "시트에서 다음 컬럼을 찾을 수 없습니다: 클러스터";
           st_header "RAW 데이터"; st_sidebar_header "필터" ])%list,
     Raise (KeyError "클러스터"))
  /\ App.page (Samples.file_world
                 (Ok (Samples.sheet_client (Ok Samples.no_hours)))) 0
     = ((page_head App.SHEET_URL
         ++ [ st_warning "시트에서 다음 컬럼을 찾을 수 없습니다: 누적시간";
              st_header "RAW 데이터"; st_sidebar_header "필터";
              st_sidebar_selectbox "클러스터 선택:" [CStr "전체"; CStr "A"];
              st_dataframe (shown (pd_DataFrame Samples.no_hours) (CStr "전체"));
              st_header "간단 요약" ])%list,
        Raise (KeyError "누적시간"))
  /\ StreamlitApp.page (Samples.file_world
                          (Ok (Samples.sheet_client (Ok Samples.no_cluster)))) 0
     = App.page (Samples.file_world
                   (Ok (Samples.sheet_client (Ok Samples.no_cluster)))) 0
  /\ StreamlitApp.page (Samples.file_world
                          (Ok (Samples.sheet_client (Ok Samples.no_hours)))) 0
     = App.page (Samples.file_world
                   (Ok (Samples.sheet_client (Ok Samples.no_hours)))) 0.
Proof. repeat split; vm_compute; reflexivity. Qed.

End MissingGuards.

(** *** The filter options are the categories of the table *)

Lemma insert_sorted_perm (x : cell) (l r : list cell) :
  insert_sorted x l = Ok r -> r ≡ₚ x :: l.
Proof.
  revert r. induction l as [|y l IH]; intros r; cbn [insert_sorted].
  - intros [= <-]. reflexivity.
  - destruct (py_lt x y) as [[|]|e]; [| |discriminate].
    + intros [= <-]. reflexivity.
    + destruct (insert_sorted x l) as [r'|e]; [|discriminate].
      intros [= <-]. rewrite (IH r' eq_refl). apply Permutation_swap.
Qed.

Lemma sorted_from_perm (l acc r : list cell) :
  foldl (fun acc x =>
           match acc with
           | Raise e => Raise e
           | Ok s => insert_sorted x s
           end) (Ok acc) l = Ok r ->
  r ≡ₚ (acc ++ l)%list.
Proof.
  revert acc. induction l as [|x l IH]; intros acc; cbn [foldl].
  - intros [= <-]. rewrite app_nil_r. reflexivity.
  - destruct (insert_sorted x acc) as [acc'|e] eqn:Hi.
    + intros H. rewrite (IH _ H), (insert_sorted_perm _ _ _ Hi).
      rewrite <- Permutation_middle. reflexivity.
    + intros H. exfalso. clear -H. induction l as [|z l IHl]; [discriminate|].
      apply IHl. exact H.
Qed.

(** [sorted] returns a rearrangement of its argument when it returns. *)
Lemma sorted_perm (l r : list cell) : sorted l = Ok r -> r ≡ₚ l.
Proof. apply (sorted_from_perm l []). Qed.

Lemma unique_elem (s : list cell) (v : cell) : v ∈ unique s -> v ∈ s.
Proof.
  induction s as [|x s IH]; cbn [unique]; [intros H; inversion H|].
  rewrite !elem_of_cons, list_elem_of_filter. tauto.
Qed.

Lemma chosen_cons (first : cell) (opts : list cell) (choice : nat) :
  chosen (first :: opts) choice = first \/ chosen (first :: opts) choice ∈ opts.
Proof.
  unfold chosen. destruct choice as [|n]; cbn; [left; reflexivity|].
  destruct (opts !! n) as [v|] eqn:Hn; cbn; [|left; reflexivity].
  right. apply list_elem_of_lookup. eauto.
Qed.

Lemma py_eq_refl (v : cell) : v <> CNum NaN -> py_eq v v = true.
Proof.
  destruct v as [s|[q| |b]]; cbn; intros H.
  - apply bool_decide_eq_true_2. reflexivity.
  - apply Qeq_bool_refl.
  - congruence.
  - destruct b; reflexivity.
Qed.

(** Every option of the select box keeps a row, unless it is [nan]: on a
    non-empty table without [nan] categories the displayed row set is never
    empty. *)
Lemma kept_rows_nonempty (df : DataFrame) (choice : nat) (opts : list cell) :
  empty df = false ->
  sorted (unique (map (fun r => cell_at r "클러스터") (rows df))) = Ok opts ->
  (forall r, r ∈ rows df -> cell_at r "클러스터" <> CNum NaN) ->
  kept_rows df (chosen (CStr "전체" :: opts) choice) <> [].
Proof.
  intros He Hsorted Hnan.
  assert (Hrows : rows df <> []).
  { unfold empty in He. destruct (columns df), (rows df); congruence. }
  unfold kept_rows.
  destruct (chosen_cons (CStr "전체") opts choice) as [->|Hin]; [exact Hrows|].
  remember (chosen (CStr "전체" :: opts) choice) as sel eqn:Hsel. clear Hsel.
  destruct (py_eq sel (CStr "전체")); [exact Hrows|].
  rewrite (sorted_perm _ _ Hsorted) in Hin. apply unique_elem in Hin.
  apply list_elem_of_fmap in Hin as (r & -> & Hr).
  intros Hnil.
  assert (Hk : r ∈ filter (fun r' => py_eq (cell_at r' "클러스터")
                                       (cell_at r "클러스터") = true) (rows df)).
  { apply list_elem_of_filter. split; [|exact Hr].
    apply py_eq_refl, Hnan, Hr. }
  rewrite Hnil in Hk. inversion Hk.
Qed.

(** The run of the composer once the metric is known. *)
Lemma view_composer_metric (df : DataFrame) (choice : nat) (opts : list cell)
    (avg : num) :
  empty df = false ->
  "클러스터" ∈ columns df ->
  "누적시간" ∈ columns df ->
  sorted (unique (map (fun r => cell_at r "클러스터") (rows df))) = Ok opts ->
  mean (map (fun r => cell_at r "누적시간")
            (rows (shown df (chosen (CStr "전체" :: opts) choice)))) = ret avg ->
  App.view_composer df choice
  = ((missing_warning df
      ++ [ st_header "RAW 데이터"; st_sidebar_header "필터";
           st_sidebar_selectbox "클러스터 선택:" (CStr "전체" :: opts);
           st_dataframe (shown df (chosen (CStr "전체" :: opts) choice));
           st_header "간단 요약";
           st_metric "평균 누적 시간" (format_1f avg ++ " 시간") ])%list,
     Ok tt).
Proof.
  intros He Hc Hh Hsorted Hmean.
  rewrite (view_composer_table _ _ _ He Hc Hsorted).
  rewrite avg_hours_present
    by (cbn [shown columns]; apply available_elem; [decide_by_compute | exact Hh]).
  rewrite Hmean, bind_ret.
  unfold after, emit. cbn [output outcome fst snd].
  rewrite <- app_assoc. reflexivity.
Qed.

(** ** The two scripts side by side *)

Lemma similar_refl {A} (m : M A) : similar m m.
Proof. split; reflexivity. Qed.

Lemma similar_bind {A B} (m : M A) (k1 k2 : A -> M B) :
  (forall a, similar (k1 a) (k2 a)) -> similar (bind m k1) (bind m k2).
Proof.
  intros H. destruct m as [out [a|e]]; [|apply similar_refl].
  rewrite !bind_value. destruct (H a) as [Hr Ho].
  unfold similar, after. cbn [output outcome fst snd].
  split; [exact Hr|]. rewrite !fmap_app. f_equal. exact Ho.
Qed.

Lemma view_events_erased (l : list event) :
  filter (fun ev => is_view_event ev = true) (erase_wording <$> l)
  = filter (fun ev => is_view_event ev = true) l.
Proof.
  induction l as [|ev l IH]; [reflexivity|].
  cbn [fmap list_fmap]. rewrite !filter_cons.
  destruct ev; cbn [erase_wording is_view_event]; rewrite IH; reflexivity.
Qed.

Lemma similar_view {A} (m1 m2 : M A) :
  similar m1 m2 ->
  filter (fun ev => is_view_event ev = true) (output m1)
  = filter (fun ev => is_view_event ev = true) (output m2).
Proof.
  intros [_ Ho]. rewrite <- (view_events_erased (output m1)), Ho.
  apply view_events_erased.
Qed.

Lemma view_composer_similar (df : DataFrame) (choice : nat) :
  similar (StreamlitApp.view_composer df choice) (App.view_composer df choice).
Proof.
  unfold StreamlitApp.view_composer, App.view_composer.
  destruct (empty df); cbn [negb]; [split; reflexivity|]. cbv zeta.
  change StreamlitApp.available_columns with App.available_columns.
  change StreamlitApp.missing_columns with App.missing_columns.
  apply similar_bind. intros _.
  destruct (App.available_columns df); [split; reflexivity | apply similar_refl].
Qed.

Lemma authorize_gspread_local_file (w : World) :
  os_path_exists w "credentials.json" = true ->
  StreamlitApp.authorize_gspread w = App.authorize_gspread w.
Proof.
  intros H. unfold StreamlitApp.authorize_gspread, App.authorize_gspread.
  change StreamlitApp.SERVICE_ACCOUNT_FILE with "credentials.json".
  change App.SERVICE_ACCOUNT_FILE with "credentials.json".
  rewrite H. reflexivity.
Qed.

Section SideBySide.
Context {reader : Reader}.

Lemma page_similar (w : World) (choice : nat) :
  os_path_exists w "credentials.json" = true ->
  similar (StreamlitApp.page w choice) (App.page w choice).
Proof.
  intros H. unfold StreamlitApp.page, App.page.
  rewrite (authorize_gspread_local_file _ H).
  do 3 (apply similar_bind; intros _).
  apply similar_bind. intros [client|]; [|split; reflexivity].
  apply similar_bind. intros df. apply view_composer_similar.
Qed.

(** C9: whenever the credential resolves from the local file, the two
    scripts resolve it alike and, on the same remote table and the same
    operator choice, end alike and render the same elements up to the
    wording of error and warning messages; in particular the same filter
    options, the same displayed table (hence the same available columns and
    rows) and the same mean metric.  The functions that compute these four
    are the same in both scripts. *)
Theorem scripts_agree_on_local_file (w : World) (choice : nat) :
  os_path_exists w "credentials.json" = true ->
  StreamlitApp.authorize_gspread w = App.authorize_gspread w
  /\ outcome (StreamlitApp.page w choice) = outcome (App.page w choice)
  /\ erase_wording <$> output (StreamlitApp.page w choice)
     = erase_wording <$> output (App.page w choice)
  /\ filter (fun ev => is_view_event ev = true) (output (StreamlitApp.page w choice))
     = filter (fun ev => is_view_event ev = true) (output (App.page w choice))
  /\ StreamlitApp.load_simple_data = App.load_simple_data
  /\ StreamlitApp.available_columns = App.available_columns
  /\ StreamlitApp.all_clusters = App.all_clusters
  /\ StreamlitApp.df_display = App.df_display
  /\ StreamlitApp.avg_hours = App.avg_hours.
Proof.
  intros H. pose proof (page_similar w choice H) as Hs.
  split; [apply authorize_gspread_local_file, H|].
  split; [apply Hs|]. split; [apply Hs|].
  split; [apply similar_view, Hs|].
  repeat split.
Qed.

End SideBySide.

Lemma scripts_agree_on_local_file_witness :
  filter (fun ev => is_view_event ev = true)
         (output (StreamlitApp.page
                    (Samples.file_world
                       (Ok (Samples.sheet_client (Ok Samples.scenario_A)))) 1))
  = filter (fun ev => is_view_event ev = true)
           (output (App.page
                      (Samples.file_world
                         (Ok (Samples.sheet_client (Ok Samples.scenario_A)))) 1)).
Proof.
  apply (scripts_agree_on_local_file
           (Samples.file_world (Ok (Samples.sheet_client (Ok Samples.scenario_A)))) 1).
  reflexivity.
Defined.

(** ** Worked examples *)

(** The reader of the sample sheets. *)
Example parse_examples :
  parse_float "12.5" = Some (25 # 2)%Q /\ parse_float "abc" = None
  /\ parse_float EmptyString = None /\ parse_float "-3" = Some (-3 # 1)%Q
  /\ parse_float "." = None /\ parse_float "1.5x" = None.
Proof. repeat split; reflexivity. Qed.

Example format_examples :
  format_1f (Fin (71 # 6)) = "11.8" /\ format_1f NaN = "nan"
  /\ format_1f (Fin 0) = "0.0" /\ format_1f (Fin (-5 # 4)) = "-1.2"
  /\ format_1f (Fin (2499 # 25)) = "100.0"
  /\ format_1f (Inf false) = "inf" /\ format_1f (Inf true) = "-inf".
Proof. repeat split; vm_compute; reflexivity. Qed.

Example sorted_examples :
  sorted [CStr "b"; CStr "a"; CStr "B"] = Ok [CStr "B"; CStr "a"; CStr "b"]
  /\ sorted [CNum (Fin 2); CNum (Fin 1)] = Ok [CNum (Fin 1); CNum (Fin 2)]
  /\ exists msg, sorted [CStr "a"; CNum (Fin 1)] = Raise (TypeError msg).
Proof. repeat split; try reflexivity. eexists. reflexivity. Qed.

(** Scenario A of the spec, on both pages. *)
Example scenario_A_page :
  App.page (Samples.file_world
              (Ok (Samples.sheet_client (Ok Samples.scenario_A)))) 0
  = ((page_head App.SHEET_URL
      ++ [ st_header "RAW 데이터"; st_sidebar_header "필터";
           st_sidebar_selectbox "클러스터 선택:" [CStr "전체"; CStr "A"; CStr "B"];
           st_dataframe (shown (loaded Samples.scenario_A) (CStr "전체"));
           st_header "간단 요약";
           st_metric "평균 누적 시간" "11.8 시간" ])%list,
     Ok tt)
  /\ values (shown (loaded Samples.scenario_A) (CStr "전체"))
     = [ [CStr "A"; CNum (Fin 1); CStr "Kim"; CStr "Dev"; CNum (Fin 20)];
         [CStr "B"; CNum (Fin 2); CStr "Lee"; CStr "Ops"; CNum (Fin 0)];
         [CStr "A"; CNum (Fin 3); CStr "Park"; CStr "Dev"; CNum (Fin (31 # 2))] ].
Proof. split; vm_compute; reflexivity. Qed.

(** Scenario B of the spec: 부서명 is missing; the warning names it and the
    other four columns are rendered. *)
Example scenario_B_page :
  App.missing_columns (loaded Samples.scenario_B) = ["부서명"]
  /\ App.page (Samples.file_world
                 (Ok (Samples.sheet_client (Ok Samples.scenario_B)))) 2
     = ((page_head App.SHEET_URL
         ++ [ st_warning "시트에서 다음 컬럼을 찾을 수 없습니다: 부서명";
              st_header "RAW 데이터"; st_sidebar_header "필터";
              st_sidebar_selectbox "클러스터 선택:" [CStr "전체"; CStr "A"; CStr "B"];
              st_dataframe (shown (loaded Samples.scenario_B) (CStr "B"));
              st_header "간단 요약";
              st_metric "평균 누적 시간" "10.0 시간" ])%list,
        Ok tt)
  /\ columns (shown (loaded Samples.scenario_B) (CStr "B"))
     = ["클러스터"; "사번"; "이름"; "누적시간"]
  /\ values (shown (loaded Samples.scenario_B) (CStr "B"))
     = [ [CStr "B"; CNum (Fin 2); CStr "Lee"; CNum (Fin 10)] ].
Proof. repeat split; vm_compute; reflexivity. Qed.

(** A 클러스터 column that mixes text and numbers cannot be sorted: the
    page raises at the filter. *)
Example mixed_cluster_types_raise :
  exists msg,
  outcome (App.view_composer
             (loaded [ Samples.person (CStr "A") 1 "Kim" "Dev" (CNum (Fin 1));
                       Samples.person (CNum (Fin 7)) 2 "Lee" "Ops" (CNum (Fin 2)) ])
             0)
  = Raise (TypeError msg).
Proof. eexists. vm_compute. reflexivity. Qed.

(** * Further properties *)

(** ** What the loader keeps *)
Section Kept.
Context {reader : Reader}.

Lemma loaded_rows (data : list (list (string * cell))) :
  "누적시간" ∈ columns (pd_DataFrame data) ->
  rows (loaded data)
  = (fun r => <["누적시간" := CNum (coerced (r !! "누적시간"))]> r)
      <$> rows (pd_DataFrame data).
Proof.
  intros Hc. unfold loaded. rewrite decide_True by exact Hc.
  unfold setitem, fillna, to_numeric. cbn [rows].
  generalize (rows (pd_DataFrame data)) as l.
  induction l as [|r l IH]; [reflexivity|].
  cbn [map fmap list_fmap zip_with]. f_equal; [|exact IH].
  unfold cell_at. rewrite fill_to_numeric. reflexivity.
Qed.

Lemma loaded_length (data : list (list (string * cell))) :
  length (rows (loaded data)) = length data.
Proof.
  destruct (decide ("누적시간" ∈ columns (pd_DataFrame data))) as [Hc|Hc].
  - rewrite (loaded_rows _ Hc), length_fmap. unfold pd_DataFrame. cbn [rows].
    apply length_map.
  - unfold loaded. rewrite decide_False by exact Hc. unfold pd_DataFrame.
    cbn [rows]. apply length_map.
Qed.

(** X1: loading keeps the shape of the sheet and touches no other column:
    the table has one row per record and the columns of the records, and
    under every column other than 누적시간 row [i] holds the cell of record
    [i], or [nan] where the record has no such key. *)
Theorem load_keeps_other_columns (data : list (list (string * cell))) :
  length (rows (loaded data)) = length data
  /\ columns (loaded data) = columns (pd_DataFrame data)
  /\ forall i rec c,
       data !! i = Some rec ->
       c ∈ columns (loaded data) ->
       c <> "누적시간" ->
       exists r, rows (loaded data) !! i = Some r
                 /\ r !! c = Some (default (CNum NaN)
                                     ((list_to_map rec : gmap string cell) !! c)).
Proof.
  split; [apply loaded_length|]. split; [apply loaded_columns|].
  intros i rec c Hi Hc Hne. rewrite loaded_columns in Hc.
  assert (Hrow : rows (pd_DataFrame data) !! i
                 = Some (project (columns (pd_DataFrame data)) (list_to_map rec))).
  { unfold pd_DataFrame at 1. cbn [rows].
    rewrite list_lookup_fmap, Hi. reflexivity. }
  destruct (decide ("누적시간" ∈ columns (pd_DataFrame data))) as [Hh|Hh].
  - rewrite (loaded_rows _ Hh), list_lookup_fmap, Hrow. cbn [fmap option_fmap option_map].
    eexists. split; [reflexivity|].
    rewrite lookup_insert_ne by congruence. apply project_lookup, Hc.
  - unfold loaded. rewrite decide_False by exact Hh. rewrite Hrow.
    eexists. split; [reflexivity|]. apply project_lookup, Hc.
Qed.

End Kept.

Lemma load_keeps_other_columns_witness :
  exists r, rows (loaded Samples.scenario_A) !! 2%nat = Some r
            /\ r !! "이름" = Some (CStr "Park").
Proof.
  apply (proj2 (proj2 (load_keeps_other_columns Samples.scenario_A)) 2%nat
           (Samples.person (CStr "A") 3 "Park" "Dev" (CStr "15.5")) "이름").
  - reflexivity.
  - decide_by_compute.
  - discriminate.
Defined.

(** ** The metric of a loaded table *)

Lemma numeric_values_numbers (s : list cell) :
  all_kind false s -> exists xs, numeric_values s = Ok xs.
Proof.
  induction 1 as [|c s Hc _ [xs IH]]; [exists []; reflexivity|].
  destruct c as [t|[q| |b]]; [discriminate| | |]; cbn [numeric_values];
    rewrite ?IH; eauto.
Qed.

(** The mean of a column of numbers never raises; of no number at all it
    is [nan]. *)
Lemma mean_numbers (s : list cell) :
  all_kind false s ->
  exists avg, mean s = ret avg /\ (s = [] -> avg = NaN).
Proof.
  intros H. destruct (numeric_values_numbers s H) as [xs Hx].
  unfold mean. rewrite Hx. destruct xs as [|x xs].
  - exists NaN. auto.
  - eexists. split; [reflexivity|]. intros ->. discriminate.
Qed.

Lemma kept_rows_sub (df : DataFrame) (sel : cell) (r : gmap string cell) :
  r ∈ kept_rows df sel -> r ∈ rows df.
Proof.
  unfold kept_rows. destruct (py_eq sel (CStr "전체")); [tauto|].
  rewrite list_elem_of_filter. tauto.
Qed.

Lemma df_display_returns (df : DataFrame) (sel : cell) (d : DataFrame) :
  App.df_display df (App.available_columns df) sel = ret d -> d = shown df sel.
Proof.
  intros H. destruct (decide ("클러스터" ∈ columns df)) as [Hc|Hc].
  - rewrite (df_display_shown _ _ Hc) in H. injection H as <-. reflexivity.
  - unfold App.df_display in H. unfold shown, kept_rows.
    destruct (py_eq sel (CStr "전체")).
    + rewrite getitem_cols_present in H by (intros c; apply available_in_columns).
      injection H as <-. reflexivity.
    + rewrite (getitem_absent _ _ Hc) in H. discriminate.
Qed.

Section Metric.
Context {reader : Reader}.

Lemma loaded_hours_numeric (data : list (list (string * cell)))
    (r : gmap string cell) :
  "누적시간" ∈ columns (loaded data) ->
  r ∈ rows (loaded data) ->
  is_str (cell_at r "누적시간") = false.
Proof.
  rewrite loaded_columns. intros Hc Hr. rewrite (loaded_rows _ Hc) in Hr.
  apply list_elem_of_fmap in Hr as (r0 & -> & _).
  unfold cell_at. rewrite lookup_insert_eq. reflexivity.
Qed.

Lemma shown_hours_numeric (data : list (list (string * cell))) (sel : cell) :
  "누적시간" ∈ columns (loaded data) ->
  all_kind false (column (shown (loaded data) sel) "누적시간").
Proof.
  intros Hc. unfold column, shown. cbn [rows].
  apply Forall_forall. intros c Hin.
  apply list_elem_of_fmap in Hin as (r' & -> & Hr').
  apply list_elem_of_fmap in Hr' as (r & -> & Hr).
  rewrite project_cell_at
    by (apply available_elem; [decide_by_compute | exact Hc]).
  apply (loaded_hours_numeric data); [exact Hc|]. apply (kept_rows_sub _ _ _ Hr).
Qed.

(** X2: on every loaded table that has the 누적시간 column, the mean of
    whatever the filter displays never raises: it is a number, or [nan];
    it is [nan] when no row is displayed.  Both scripts. *)
Theorem metric_of_loaded_table_never_raises (data : list (list (string * cell)))
    (sel : cell) (d : DataFrame) :
  "누적시간" ∈ columns (loaded data) ->
  App.df_display (loaded data) (App.available_columns (loaded data)) sel = ret d ->
  exists avg,
    App.avg_hours d = ret avg
    /\ StreamlitApp.avg_hours d = ret avg
    /\ (rows d = [] -> avg = NaN).
Proof.
  intros Hc Hd. apply df_display_returns in Hd. subst d.
  assert (Hc' : "누적시간" ∈ columns (shown (loaded data) sel))
    by (cbn [shown columns]; apply available_elem; [decide_by_compute | exact Hc]).
  destruct (mean_numbers _ (shown_hours_numeric data sel Hc)) as (avg & Hm & He).
  exists avg. change StreamlitApp.avg_hours with App.avg_hours.
  rewrite (avg_hours_present _ Hc').
  split; [exact Hm|]. split; [exact Hm|].
  intros Hr. apply He. unfold column. rewrite Hr. reflexivity.
Qed.

End Metric.

Lemma metric_of_loaded_table_never_raises_witness :
  exists avg,
    App.avg_hours (shown (loaded Samples.scenario_A) (CStr "A")) = ret avg
    /\ StreamlitApp.avg_hours (shown (loaded Samples.scenario_A) (CStr "A"))
       = ret avg
    /\ (rows (shown (loaded Samples.scenario_A) (CStr "A")) = [] -> avg = NaN).
Proof.
  apply (metric_of_loaded_table_never_raises Samples.scenario_A (CStr "A")).
  - decide_by_compute.
  - vm_compute. reflexivity.
Defined.

(** ** Sorting the categories *)

Lemma sorted_fold (l : list cell) : sorted l = foldl sort_step (Ok []) l.
Proof. reflexivity. Qed.

Lemma py_lt_same_kind (a b : cell) :
  is_str a = is_str b -> exists t, py_lt a b = Ok t.
Proof. destruct a, b; cbn; intros H; try discriminate; eexists; reflexivity. Qed.

Lemma py_lt_other_kind (a b : cell) :
  is_str a <> is_str b -> exists msg, py_lt a b = Raise (TypeError msg).
Proof. destruct a, b; cbn; intros H; try congruence; eexists; reflexivity. Qed.

Lemma py_lt_raises (a b : cell) (e : exn) :
  py_lt a b = Raise e -> is_str a <> is_str b /\ exists msg, e = TypeError msg.
Proof.
  destruct a, b; cbn; intros H; try discriminate;
    injection H as <-; (split; [discriminate | eexists; reflexivity]).
Qed.

Lemma insert_sorted_raises (x : cell) (l : list cell) (e : exn) :
  insert_sorted x l = Raise e -> exists msg, e = TypeError msg.
Proof.
  induction l as [|y l IH]; cbn [insert_sorted]; [discriminate|].
  destruct (py_lt x y) as [[|]|e'] eqn:Hlt.
  - discriminate.
  - destruct (insert_sorted x l); [discriminate|]. intros [= ->]. apply IH. reflexivity.
  - intros [= ->]. exact (proj2 (py_lt_raises _ _ _ Hlt)).
Qed.

Lemma insert_sorted_ok (k : bool) (x : cell) (l : list cell) :
  all_kind k l -> is_str x = k -> exists r, insert_sorted x l = Ok r.
Proof.
  intros Hl Hx. induction Hl as [|y l Hy _ IH]; cbn [insert_sorted]; [eauto|].
  destruct (py_lt_same_kind x y) as [t ->]; [congruence|].
  destruct t; [eauto|]. destruct IH as [r ->]. eauto.
Qed.

Lemma insert_sorted_kind (k : bool) (x : cell) (l r : list cell) :
  all_kind k l -> l <> [] -> insert_sorted x l = Ok r -> is_str x = k.
Proof.
  intros Hl Hne. destruct Hl as [|y l Hy _]; [congruence|]. cbn [insert_sorted].
  destruct (py_lt x y) as [t|e] eqn:Hlt; [|discriminate]. intros _.
  destruct (decide (is_str x = is_str y)) as [E|E]; [congruence|].
  destruct (py_lt_other_kind _ _ E) as [msg Hm]. congruence.
Qed.

Lemma sort_step_raise (e : exn) (l : list cell) :
  foldl sort_step (Raise e) l = Raise e.
Proof. induction l as [|x l IH]; [reflexivity | exact IH]. Qed.

Lemma sort_fold_ok (k : bool) (l acc : list cell) :
  all_kind k acc -> all_kind k l -> exists r, foldl sort_step (Ok acc) l = Ok r.
Proof.
  intros Hacc Hl. revert acc Hacc.
  induction Hl as [|x l Hx _ IH]; intros acc Hacc; cbn [foldl sort_step]; [eauto|].
  destruct (insert_sorted_ok k x acc Hacc Hx) as [acc' Hi]. rewrite Hi.
  apply IH. unfold all_kind. rewrite (insert_sorted_perm _ _ _ Hi).
  constructor; assumption.
Qed.

Lemma sort_fold_kind (k : bool) (l acc r : list cell) :
  all_kind k acc -> acc <> [] ->
  foldl sort_step (Ok acc) l = Ok r -> all_kind k l.
Proof.
  revert acc. induction l as [|x l IH]; intros acc Hacc Hne; [constructor|].
  cbn [foldl sort_step]. destruct (insert_sorted x acc) as [acc'|e] eqn:Hi.
  - intros H. pose proof (insert_sorted_kind k x acc acc' Hacc Hne Hi) as Hx.
    constructor; [exact Hx|]. apply (IH acc'); [| |exact H].
    + unfold all_kind. rewrite (insert_sorted_perm _ _ _ Hi).
      constructor; assumption.
    + intros ->. pose proof (insert_sorted_perm _ _ _ Hi) as Hp.
      apply Permutation_nil_cons in Hp as [].
  - rewrite sort_step_raise. discriminate.
Qed.

Lemma sort_fold_raises (l acc : list cell) (e : exn) :
  foldl sort_step (Ok acc) l = Raise e -> exists msg, e = TypeError msg.
Proof.
  revert acc. induction l as [|x l IH]; intros acc; [discriminate|].
  cbn [foldl sort_step]. destruct (insert_sorted x acc) as [acc'|e'] eqn:Hi.
  - apply IH.
  - rewrite sort_step_raise. intros [= ->]. apply (insert_sorted_raises _ _ _ Hi).
Qed.

(** [sorted] returns exactly on the lists of one kind. *)
Lemma sorted_ok_iff (l : list cell) :
  (exists r, sorted l = Ok r) <-> (exists k, all_kind k l).
Proof.
  rewrite sorted_fold. split.
  - intros [r H]. destruct l as [|x l]; [exists true; constructor|].
    cbn [foldl sort_step insert_sorted] in H. exists (is_str x).
    constructor; [reflexivity|].
    apply (sort_fold_kind (is_str x) l [x] r); [|discriminate|exact H].
    constructor; [reflexivity | constructor].
  - intros [k H]. apply (sort_fold_ok k); [constructor | exact H].
Qed.

Lemma same_value_kind (a b : cell) : same_value a b = true -> is_str a = is_str b.
Proof. destruct a as [s|[q| |i]], b as [t|[p| |j]]; cbn; congruence. Qed.

Lemma same_value_refl (a : cell) : same_value a a = true.
Proof.
  destruct a as [s|[q| |i]]; cbn;
    [|apply Qeq_bool_refl|reflexivity|destruct i; reflexivity].
  apply bool_decide_eq_true_2. reflexivity.
Qed.

Lemma same_value_trans (a b c : cell) :
  same_value a b = true -> same_value b c = true -> same_value a c = true.
Proof.
  destruct a as [s|[q| |i]], b as [t|[p| |j]], c as [u|[o| |k]]; cbn;
    try congruence.
  - rewrite !bool_decide_eq_true. congruence.
  - rewrite !Qeq_bool_iff. apply Qeq_trans.
  - destruct i, j, k; cbn; congruence.
Qed.

(** Every value of a column has its representative among the distinct
    values. *)
Lemma unique_covers (s : list cell) (v : cell) :
  v ∈ s -> exists u, u ∈ unique s /\ same_value u v = true.
Proof.
  induction s as [|x s IH]; [intros H; inversion H|].
  rewrite elem_of_cons. cbn [unique]. intros [->|Hv].
  - exists x. split; [left | apply same_value_refl].
  - destruct (IH Hv) as (u & Hu & Huv).
    destruct (same_value x u) eqn:Hxu.
    + exists x. split; [left | exact (same_value_trans _ _ _ Hxu Huv)].
    + exists u. split; [|exact Huv]. right. apply list_elem_of_filter. tauto.
Qed.

Lemma unique_all_kind (k : bool) (s : list cell) :
  all_kind k (unique s) <-> all_kind k s.
Proof.
  unfold all_kind. rewrite !Forall_forall. split; intros H v Hv.
  - destruct (unique_covers s v Hv) as (u & Hu & Huv).
    rewrite <- (same_value_kind _ _ Huv). apply H, Hu.
  - apply H, unique_elem, Hv.
Qed.

(** The categories sort exactly when the column is all text or all
    numbers; otherwise [sorted] raises [TypeError] and the column holds both
    a text and a number. *)
Lemma sorted_categories (l : list cell) :
  match sorted (unique l) with
  | Ok _ => exists k, all_kind k l
  | Raise e =>
      exists msg s x, e = TypeError msg /\ CStr s ∈ l /\ CNum x ∈ l
  end.
Proof.
  destruct (sorted (unique l)) as [r|e] eqn:Hs.
  - destruct (proj1 (sorted_ok_iff _) (ex_intro _ r Hs)) as [k Hk].
    exists k. apply unique_all_kind, Hk.
  - destruct (sort_fold_raises _ _ _ Hs) as [msg ->].
    assert (Hno : forall k, ~ all_kind k l).
    { intros k Hk. apply unique_all_kind in Hk.
      destruct (proj2 (sorted_ok_iff _) (ex_intro _ k Hk)) as [r Hr]. congruence. }
    pose proof (Hno true) as Ht. pose proof (Hno false) as Hf.
    unfold all_kind in Ht, Hf.
    apply not_Forall_Exists in Ht; [|intros c; apply _].
    apply not_Forall_Exists in Hf; [|intros c; apply _].
    apply Exists_exists in Ht as ([t|x] & Hx & Hkx); [cbn in Hkx; congruence|].
    apply Exists_exists in Hf as ([t|y] & Hy & Hky); [|cbn in Hky; congruence].
    exists msg, t, x. auto.
Qed.

(** ** When the composer completes and when it raises *)

Lemma view_composer_sort_raises (df : DataFrame) (choice : nat) (e : exn) :
  empty df = false ->
  "클러스터" ∈ columns df ->
  sorted (unique (column df "클러스터")) = Raise e ->
  App.view_composer df choice
  = ((missing_warning df ++ [st_header "RAW 데이터"; st_sidebar_header "필터"])%list,
     Raise e).
Proof.
  intros He Hc Hs.
  assert (Hne : App.available_columns df <> []).
  { apply (available_nonempty _ "클러스터"), available_elem; [decide_by_compute | exact Hc]. }
  unfold App.view_composer. rewrite He. cbn [negb]. cbv zeta.
  rewrite (bind_unit _ _ _ (warn_missing df)).
  rewrite (list_case_cons _ _ _ Hne).
  rewrite !bind_emit. unfold App.all_clusters.
  rewrite (getitem_present _ _ Hc), !bind_ret.
  change (map (fun r => cell_at r "클러스터") (rows df)) with (column df "클러스터").
  rewrite Hs. cbn [bind call].
  rewrite !after_after. unfold after. cbn [output outcome fst snd].
  rewrite app_nil_r, <- app_assoc. reflexivity.
Qed.

(** X3: a 클러스터 column that holds both a text and a number cannot be
    sorted: on every such non-empty table the composer renders the warning
    (if any) and the two headers, then raises [TypeError]; no filter, table
    or metric is rendered.  Both scripts. *)
Theorem mixed_categories_raise (df : DataFrame) (choice : nat) (i j : nat)
    (s : string) (x : num) :
  empty df = false ->
  "클러스터" ∈ columns df ->
  column df "클러스터" !! i = Some (CStr s) ->
  column df "클러스터" !! j = Some (CNum x) ->
  exists msg,
    App.view_composer df choice
    = ((missing_warning df ++ [st_header "RAW 데이터"; st_sidebar_header "필터"])%list,
       Raise (TypeError msg))
    /\ StreamlitApp.view_composer df choice = App.view_composer df choice.
Proof.
  intros He Hc Hs Hx.
  pose proof (sorted_categories (column df "클러스터")) as H.
  destruct (sorted (unique (column df "클러스터"))) as [opts|e] eqn:Hsort.
  - exfalso. destruct H as [k Hk]. unfold all_kind in Hk.
    rewrite Forall_forall in Hk.
    pose proof (Hk _ (list_elem_of_lookup_2 _ _ _ Hs)) as H1.
    pose proof (Hk _ (list_elem_of_lookup_2 _ _ _ Hx)) as H2.
    cbn in H1, H2. congruence.
  - destruct H as (msg & _ & _ & -> & _). exists msg.
    split; [apply view_composer_sort_raises; assumption|].
    apply view_composer_same; [exact He|].
    apply (available_nonempty _ "클러스터"), available_elem; [decide_by_compute | exact Hc].
Qed.

Lemma mixed_categories_raise_witness :
  exists msg,
    App.view_composer
      (loaded [ Samples.person (CStr "A") 1 "Kim" "Dev" (CNum (Fin 1));
                Samples.person (CNum (Fin 7)) 2 "Lee" "Ops" (CNum (Fin 2)) ]) 0
    = ([st_header "RAW 데이터"; st_sidebar_header "필터"], Raise (TypeError msg)).
Proof.
  destruct (mixed_categories_raise
              (loaded [ Samples.person (CStr "A") 1 "Kim" "Dev" (CNum (Fin 1));
                        Samples.person (CNum (Fin 7)) 2 "Lee" "Ops" (CNum (Fin 2)) ])
              0 0%nat 1%nat "A" (Fin 7)) as (msg & H & _).
  - reflexivity.
  - decide_by_compute.
  - reflexivity.
  - reflexivity.
  - exists msg. exact H.
Defined.

Section Completes.
Context {reader : Reader}.

(** On a loaded table that has the 클러스터 and 누적시간 columns, with the
    클러스터 cells all text or all numbers, the composer runs to its end. *)
Lemma view_composer_returns (data : list (list (string * cell))) (choice : nat)
    (k : bool) :
  empty (loaded data) = false ->
  "클러스터" ∈ columns (loaded data) ->
  "누적시간" ∈ columns (loaded data) ->
  all_kind k (column (loaded data) "클러스터") ->
  exists opts avg,
    sorted (unique (column (loaded data) "클러스터")) = Ok opts
    /\ mean (column (shown (loaded data) (chosen (CStr "전체" :: opts) choice))
                    "누적시간") = ret avg
    /\ App.view_composer (loaded data) choice
       = ((missing_warning (loaded data)
           ++ [ st_header "RAW 데이터"; st_sidebar_header "필터";
                st_sidebar_selectbox "클러스터 선택:" (CStr "전체" :: opts);
                st_dataframe (shown (loaded data) (chosen (CStr "전체" :: opts) choice));
                st_header "간단 요약";
                st_metric "평균 누적 시간" (format_1f avg ++ " 시간") ])%list,
          Ok tt).
Proof.
  intros He Hc Hh Hk.
  assert (Hex : exists r, sorted (unique (column (loaded data) "클러스터")) = Ok r).
  { apply sorted_ok_iff. exists k. apply unique_all_kind, Hk. }
  destruct Hex as [opts Hs].
  destruct (mean_numbers _ (shown_hours_numeric data
              (chosen (CStr "전체" :: opts) choice) Hh)) as (avg & Hmean & _).
  exists opts, avg.
  split; [exact Hs|]. split; [exact Hmean|].
  apply view_composer_metric; assumption.
Qed.

(** X4: on a loaded table that has the 클러스터 and 누적시간 columns, with
    the 클러스터 cells all text or all numbers and none of them [nan], the
    composer completes for every choice of the operator: it renders the
    warning (if any), the two headers, the filter with 전체 and the sorted
    categories, the table for the chosen option, the summary header and one
    metric, and returns.  Both scripts. *)
Theorem composer_completes (data : list (list (string * cell))) (choice : nat)
    (k : bool) :
  empty (loaded data) = false ->
  "클러스터" ∈ columns (loaded data) ->
  "누적시간" ∈ columns (loaded data) ->
  all_kind k (column (loaded data) "클러스터") ->
  Forall (fun c => c <> CNum NaN) (column (loaded data) "클러스터") ->
  exists opts text,
    sorted (unique (column (loaded data) "클러스터")) = Ok opts
    /\ App.view_composer (loaded data) choice
       = ((missing_warning (loaded data)
           ++ [ st_header "RAW 데이터"; st_sidebar_header "필터";
                st_sidebar_selectbox "클러스터 선택:" (CStr "전체" :: opts);
                st_dataframe (shown (loaded data) (chosen (CStr "전체" :: opts) choice));
                st_header "간단 요약";
                st_metric "평균 누적 시간" text ])%list,
          Ok tt)
    /\ StreamlitApp.view_composer (loaded data) choice
       = App.view_composer (loaded data) choice.
Proof.
  intros He Hc Hh Hk _.
  destruct (view_composer_returns data choice k He Hc Hh Hk)
    as (opts & avg & Hs & _ & Hv).
  exists opts, (format_1f avg ++ " 시간")%string.
  split; [exact Hs|]. split; [exact Hv|].
  apply view_composer_same; [exact He|].
  apply (available_nonempty _ "클러스터"), available_elem; [decide_by_compute | exact Hc].
Qed.

(** X5: on a loaded table the composer raises in three ways only:
    [KeyError] for a missing 클러스터 column, [KeyError] for a missing
    누적시간 column, and [TypeError] when the 클러스터 column holds both a
    text and a number.  In particular the mean never raises on a loaded
    table. *)
Theorem composer_raises_only (data : list (list (string * cell))) (choice : nat)
    (e : exn) :
  outcome (App.view_composer (loaded data) choice) = Raise e ->
  (e = KeyError "클러스터" /\ "클러스터" ∉ columns (loaded data))
  \/ (e = KeyError "누적시간" /\ "누적시간" ∉ columns (loaded data))
  \/ (exists msg s x,
        e = TypeError msg
        /\ CStr s ∈ column (loaded data) "클러스터"
        /\ CNum x ∈ column (loaded data) "클러스터").
Proof.
  set (df := loaded data). intros H.
  destruct (empty df) eqn:He.
  { revert H. unfold App.view_composer. rewrite He. discriminate. }
  destruct (decide (App.available_columns df = [])) as [Ha|Ha].
  { revert H. unfold App.view_composer. rewrite He. cbn [negb]. cbv zeta.
    rewrite (bind_unit _ _ _ (warn_missing df)), Ha. discriminate. }
  destruct (decide ("클러스터" ∈ columns df)) as [Hc|Hc].
  2:{ rewrite (view_composer_without_cluster _ _ He Ha Hc) in H.
      injection H as <-. left. auto. }
  pose proof (sorted_categories (column df "클러스터")) as Hs.
  destruct (sorted (unique (column df "클러스터"))) as [opts|e'] eqn:Hsort.
  2:{ rewrite (view_composer_sort_raises _ _ _ He Hc Hsort) in H.
      injection H as <-. right. right. exact Hs. }
  destruct (decide ("누적시간" ∈ columns df)) as [Hh|Hh].
  2:{ rewrite (view_composer_without_hours _ _ _ He Hc Hh Hsort) in H.
      injection H as <-. right. left. auto. }
  exfalso. destruct Hs as [k Hk].
  destruct (view_composer_returns data choice k He Hc Hh Hk)
    as (o & avg & _ & _ & Hv).
  fold df in Hv. rewrite Hv in H. discriminate.
Qed.

End Completes.

Lemma composer_completes_witness :
  exists opts text,
    sorted (unique (column (loaded Samples.scenario_B) "클러스터")) = Ok opts
    /\ App.view_composer (loaded Samples.scenario_B) 2
       = ((missing_warning (loaded Samples.scenario_B)
           ++ [ st_header "RAW 데이터"; st_sidebar_header "필터";
                st_sidebar_selectbox "클러스터 선택:" (CStr "전체" :: opts);
                st_dataframe (shown (loaded Samples.scenario_B)
                                    (chosen (CStr "전체" :: opts) 2));
                st_header "간단 요약";
                st_metric "평균 누적 시간" text ])%list,
          Ok tt)
    /\ StreamlitApp.view_composer (loaded Samples.scenario_B) 2
       = App.view_composer (loaded Samples.scenario_B) 2.
Proof.
  apply (composer_completes Samples.scenario_B 2 true).
  - reflexivity.
  - decide_by_compute.
  - decide_by_compute.
  - vm_compute. repeat constructor.
  - vm_compute. repeat constructor; discriminate.
Defined.

Lemma composer_raises_only_witness :
  (KeyError "클러스터" = KeyError "클러스터"
   /\ "클러스터" ∉ columns (loaded Samples.no_cluster))
  \/ (KeyError "클러스터" = KeyError "누적시간"
      /\ "누적시간" ∉ columns (loaded Samples.no_cluster))
  \/ (exists msg s x,
        KeyError "클러스터" = TypeError msg
        /\ CStr s ∈ column (loaded Samples.no_cluster) "클러스터"
        /\ CNum x ∈ column (loaded Samples.no_cluster) "클러스터").
Proof.
  apply (composer_raises_only Samples.no_cluster 0 (KeyError "클러스터")).
  vm_compute. reflexivity.
Defined.

(** ** The options of the filter *)

Lemma str_ltb_irrefl (s : string) : str_ltb s s = false.
Proof.
  induction s as [|a s IH]; cbn [str_ltb]; [reflexivity|].
  rewrite Nat.ltb_irrefl. exact IH.
Qed.

Lemma str_ltb_trans (s t u : string) :
  str_ltb s t = true -> str_ltb t u = true -> str_ltb s u = true.
Proof.
  revert t u. induction s as [|a s IH]; intros [|b t] [|c u]; cbn [str_ltb];
    try congruence.
  destruct (Nat.ltb_spec (nat_of_ascii a) (nat_of_ascii b)),
           (Nat.ltb_spec (nat_of_ascii b) (nat_of_ascii a)),
           (Nat.ltb_spec (nat_of_ascii b) (nat_of_ascii c)),
           (Nat.ltb_spec (nat_of_ascii c) (nat_of_ascii b)),
           (Nat.ltb_spec (nat_of_ascii a) (nat_of_ascii c)),
           (Nat.ltb_spec (nat_of_ascii c) (nat_of_ascii a));
    try lia; try congruence. apply IH.
Qed.

Lemma str_ltb_total (s t : string) :
  str_ltb s t = false -> str_ltb t s = false -> s = t.
Proof.
  revert t. induction s as [|a s IH]; intros [|b t]; cbn [str_ltb];
    try congruence.
  destruct (Nat.ltb_spec (nat_of_ascii a) (nat_of_ascii b)) as [Hab|Hab],
           (Nat.ltb_spec (nat_of_ascii b) (nat_of_ascii a)) as [Hba|Hba];
    try congruence.
  intros H1 H2. f_equal; [|apply IH; assumption].
  rewrite <- (ascii_nat_embedding a), <- (ascii_nat_embedding b).
  f_equal. lia.
Qed.

Lemma num_ltb_trans (x y z : num) :
  num_ltb x y = true -> num_ltb y z = true -> num_ltb x z = true.
Proof.
  destruct x as [p| |[|]], y as [q| |[|]], z as [r| |[|]]; cbn; try congruence.
  destruct (p ?= q)%Q eqn:Hpq; try discriminate.
  destruct (q ?= r)%Q eqn:Hqr; try discriminate.
  intros _ _. apply Qlt_alt in Hpq, Hqr.
  rewrite (proj1 (Qlt_alt p r) (Qlt_trans _ _ _ Hpq Hqr)). reflexivity.
Qed.

Lemma num_ltb_differ (x y : num) : num_ltb x y = true -> num_eqb x y = false.
Proof.
  destruct x as [p| |[|]], y as [q| |[|]]; cbn; try congruence.
  destruct (p ?= q)%Q eqn:Hpq; try discriminate. intros _.
  destruct (Qeq_bool p q) eqn:He; [|reflexivity].
  apply Qeq_bool_iff, Qeq_alt in He. congruence.
Qed.

Lemma num_ltb_total (x y : num) :
  x <> NaN -> y <> NaN ->
  num_ltb x y = false -> num_eqb x y = false -> num_ltb y x = true.
Proof.
  destruct x as [p| |[|]], y as [q| |[|]]; cbn; try congruence.
  intros _ _. destruct (p ?= q)%Q eqn:Hpq; try discriminate.
  - apply Qeq_alt, Qeq_bool_iff in Hpq. congruence.
  - intros _ _. apply Qgt_alt in Hpq.
    rewrite (proj1 (Qlt_alt q p) Hpq). reflexivity.
Qed.

Lemma before_trans (a b c : cell) : before a b -> before b c -> before a c.
Proof.
  unfold before. destruct a as [s|x], b as [t|y], c as [u|z]; cbn;
    try discriminate; intros [= H1] [= H2]; f_equal.
  - exact (str_ltb_trans _ _ _ H1 H2).
  - exact (num_ltb_trans _ _ _ H1 H2).
Qed.

Lemma before_differ (a b : cell) : before a b -> py_eq a b = false.
Proof.
  unfold before. destruct a as [s|x], b as [t|y]; cbn; try discriminate;
    intros [= H].
  - apply bool_decide_eq_false_2. intros ->. rewrite str_ltb_irrefl in H.
    discriminate.
  - apply num_ltb_differ, H.
Qed.

(** Two values of one kind, none of them [nan], are equal or one comes
    before the other. *)
Lemma before_total (a b : cell) :
  is_str a = is_str b -> a <> CNum NaN -> b <> CNum NaN ->
  same_value a b = false -> before a b \/ before b a.
Proof.
  unfold before. destruct a as [s|x], b as [t|y]; cbn [is_str py_lt];
    try discriminate; intros _ Ha Hb He.
  - destruct (str_ltb s t) eqn:H1; [left; reflexivity|].
    destruct (str_ltb t s) eqn:H2; [right; reflexivity|].
    rewrite (str_ltb_total _ _ H1 H2) in He. cbn in He.
    rewrite bool_decide_eq_true_2 in He by reflexivity. discriminate.
  - destruct (num_ltb x y) eqn:H1; [left; reflexivity|]. right. f_equal.
    apply num_ltb_total; [congruence | congruence | exact H1 |].
    destruct x as [p| |i], y as [q| |j]; cbn in He |- *; congruence.
Qed.

Lemma same_value_py_eq (u v : cell) :
  v <> CNum NaN -> same_value u v = true -> py_eq u v = true.
Proof. destruct u as [s|[p| |i]], v as [t|[q| |j]]; cbn; congruence. Qed.

Lemma StronglySorted_lookup {A} (R : A -> A -> Prop) (l : list A) (i j : nat)
    (a b : A) :
  StronglySorted R l -> (i < j)%nat ->
  l !! i = Some a -> l !! j = Some b -> R a b.
Proof.
  intros Hl. revert i j. induction Hl as [|x l Hl IH Hx]; intros i j Hij;
    [rewrite lookup_nil; discriminate|].
  destruct i as [|i], j as [|j]; cbn; try lia.
  - intros [= <-] Hb. rewrite Forall_forall in Hx.
    apply Hx. apply list_elem_of_lookup. eauto.
  - apply IH. lia.
Qed.

Lemma unique_distinct (s : list cell) :
  StronglySorted (fun a b => same_value a b = false) (unique s).
Proof.
  induction s as [|x s IH]; cbn [unique]; constructor.
  - induction IH as [|a l Hl IHl Ha]; [constructor|].
    rewrite filter_cons. destruct (decide (same_value x a = false)); [|exact IHl].
    constructor; [exact IHl|].
    rewrite Forall_forall in *. intros y Hy. apply Ha.
    apply list_elem_of_filter in Hy. tauto.
  - apply Forall_forall. intros y Hy. apply list_elem_of_filter in Hy. tauto.
Qed.

Lemma distinct_comparable (k : bool) (l : list cell) :
  all_kind k l ->
  Forall (fun c => c <> CNum NaN) l ->
  StronglySorted (fun a b => same_value a b = false) l ->
  StronglySorted (fun a b => before a b \/ before b a) l.
Proof.
  intros Hk Hn Hd. induction Hd as [|a l Hd IH Ha]; [constructor|].
  apply Forall_cons in Hk as [Hka Hk]. apply Forall_cons in Hn as [Hna Hn].
  constructor; [apply IH; assumption|].
  unfold all_kind in Hk. rewrite Forall_forall in *. intros b Hb.
  apply before_total; [rewrite (Hk b Hb); exact Hka | exact Hna | auto | auto].
Qed.

Lemma insert_sorted_strict (x : cell) (l r : list cell) :
  StronglySorted before l ->
  Forall (fun y => before x y \/ before y x) l ->
  insert_sorted x l = Ok r -> StronglySorted before r.
Proof.
  intros Hl. revert r. induction Hl as [|y l Hl IH Hy]; intros r Hc;
    cbn [insert_sorted].
  - intros [= <-]. repeat constructor.
  - apply Forall_cons in Hc as [Hxy Hc].
    destruct (py_lt x y) as [[|]|e] eqn:Hlt; [| |discriminate].
    + intros [= <-]. constructor; [constructor; assumption|].
      constructor; [exact Hlt|].
      eapply Forall_impl; [exact Hy|]. intros z Hz.
      exact (before_trans _ _ _ Hlt Hz).
    + destruct (insert_sorted x l) as [r'|e] eqn:Hi; [|discriminate].
      intros [= <-]. constructor; [apply IH; [exact Hc | reflexivity]|].
      rewrite (insert_sorted_perm _ _ _ Hi). constructor; [|exact Hy].
      destruct Hxy as [Hxy|Hyx]; [unfold before in Hxy; congruence | exact Hyx].
Qed.

Lemma sort_fold_strict (l acc r : list cell) :
  StronglySorted before acc ->
  Forall (fun x => Forall (fun y => before x y \/ before y x) acc) l ->
  StronglySorted (fun a b => before a b \/ before b a) l ->
  foldl sort_step (Ok acc) l = Ok r -> StronglySorted before r.
Proof.
  revert acc. induction l as [|x l IH]; intros acc Hacc Hc Hl;
    cbn [foldl sort_step].
  - intros [= <-]. exact Hacc.
  - apply Forall_cons in Hc as [Hx Hc].
    apply StronglySorted_inv in Hl as [Hl Hxl].
    destruct (insert_sorted x acc) as [acc'|e] eqn:Hi.
    + apply IH; [exact (insert_sorted_strict _ _ _ Hacc Hx Hi) | | exact Hl].
      rewrite Forall_forall in *. intros z Hz.
      rewrite (insert_sorted_perm _ _ _ Hi).
      constructor; [|apply Hc, Hz].
      destruct (Hxl z Hz); auto.
    + rewrite sort_step_raise. discriminate.
Qed.

(** Without [nan], [sorted] puts the distinct values of a column in
    strictly ascending order. *)
Lemma sorted_unique_strict (s opts : list cell) :
  Forall (fun c => c <> CNum NaN) s ->
  sorted (unique s) = Ok opts ->
  StronglySorted before opts.
Proof.
  intros Hn Hs.
  assert (Hk : exists k, all_kind k (unique s))
    by (apply sorted_ok_iff; eauto).
  destruct Hk as [k Hk].
  assert (Hn' : Forall (fun c => c <> CNum NaN) (unique s)).
  { rewrite Forall_forall in *. intros c Hc. apply Hn, unique_elem, Hc. }
  apply (sort_fold_strict (unique s) [] opts); [constructor | | | exact Hs].
  - apply Forall_forall. intros x _. constructor.
  - apply (distinct_comparable k); [exact Hk | exact Hn' | apply unique_distinct].
Qed.

(** X6: whenever the filter options are computed from a 클러스터 column
    without [nan], they are 전체 followed by the distinct values of the
    column in strictly ascending order: of any two options after 전체 the
    earlier one is less than the later one and not equal to it, every
    option after 전체 is a cell of the column, and every cell of the column
    equals one of the options.  Both scripts. *)
Theorem filter_options (df : DataFrame) (options : list cell) :
  App.all_clusters df = ret options ->
  Forall (fun c => c <> CNum NaN) (column df "클러스터") ->
  exists opts,
    options = CStr "전체" :: opts
    /\ (forall i j a b,
           (i < j)%nat -> opts !! i = Some a -> opts !! j = Some b ->
           before a b /\ py_eq a b = false)
    /\ (forall v, v ∈ opts -> v ∈ column df "클러스터")
    /\ (forall v, v ∈ column df "클러스터" ->
                  exists u, u ∈ opts /\ py_eq u v = true)
    /\ StreamlitApp.all_clusters df = App.all_clusters df.
Proof.
  unfold App.all_clusters. intros H Hn.
  destruct (decide ("클러스터" ∈ columns df)) as [Hc|Hc].
  2:{ rewrite (getitem_absent _ _ Hc) in H. discriminate. }
  rewrite (getitem_present _ _ Hc), bind_ret in H.
  change (map (fun r => cell_at r "클러스터") (rows df))
    with (column df "클러스터") in H.
  destruct (sorted (unique (column df "클러스터"))) as [opts|e] eqn:Hs;
    [|discriminate].
  rewrite bind_call_ok in H. injection H as <-.
  pose proof (sorted_perm _ _ Hs) as Hp.
  pose proof (sorted_unique_strict _ _ Hn Hs) as Hstrict.
  exists opts. split; [reflexivity|].
  split.
  { intros i j a b Hij Ha Hb.
    pose proof (StronglySorted_lookup _ _ _ _ _ _ Hstrict Hij Ha Hb) as Hab.
    split; [exact Hab | exact (before_differ _ _ Hab)]. }
  split; [intros v Hv; rewrite Hp in Hv; apply unique_elem, Hv|].
  split; [|reflexivity].
  intros v Hv. destruct (unique_covers _ _ Hv) as (u & Hu & Huv).
  exists u. rewrite Hp. split; [exact Hu|].
  apply same_value_py_eq; [|exact Huv].
  rewrite Forall_forall in Hn. apply Hn, Hv.
Qed.

Lemma filter_options_witness :
  exists opts,
    [CStr "전체"; CStr "A"; CStr "B"] = CStr "전체" :: opts
    /\ (forall i j a b,
           (i < j)%nat -> opts !! i = Some a -> opts !! j = Some b ->
           before a b /\ py_eq a b = false)
    /\ (forall v, v ∈ opts -> v ∈ column (loaded Samples.scenario_A) "클러스터")
    /\ (forall v, v ∈ column (loaded Samples.scenario_A) "클러스터" ->
                  exists u, u ∈ opts /\ py_eq u v = true)
    /\ StreamlitApp.all_clusters (loaded Samples.scenario_A)
       = App.all_clusters (loaded Samples.scenario_A).
Proof.
  apply (filter_options (loaded Samples.scenario_A) [CStr "전체"; CStr "A"; CStr "B"]).
  - vm_compute. reflexivity.
  - vm_compute. repeat constructor; discriminate.
Defined.

(** ** What is displayed *)

Lemma project_lookup_other (cols : list string) (r : gmap string cell) (c : string) :
  c ∉ cols -> project cols r !! c = None.
Proof.
  intros Hc. unfold project. apply not_elem_of_list_to_map_1.
  rewrite <- list_fmap_compose. intros Hin.
  apply list_elem_of_fmap in Hin as (c' & -> & Hin). exact (Hc Hin).
Qed.

(** X7: whatever the selection, a displayed row is a row of the table cut
    down to the available wanted columns: it holds the table's cell under
    each available column and nothing under any other label, so no column
    outside the wanted list is ever displayed.  Both scripts. *)
Theorem displayed_rows_are_projections (df : DataFrame) (sel : cell)
    (d : DataFrame) (r' : gmap string cell) :
  App.df_display df (App.available_columns df) sel = ret d ->
  r' ∈ rows d ->
  columns d = App.available_columns df
  /\ (forall c, c ∈ columns d -> c ∈ App.display_columns /\ c ∈ columns df)
  /\ exists r,
      r ∈ rows df
      /\ forall c, r' !! c = if decide (c ∈ App.available_columns df)
                             then Some (cell_at r c) else None.
Proof.
  intros Hd Hr'. apply df_display_returns in Hd. subst d.
  split; [reflexivity|].
  split.
  { intros c. cbn [shown columns]. unfold App.available_columns.
    rewrite list_elem_of_filter. tauto. }
  cbn [shown rows] in Hr'. apply list_elem_of_fmap in Hr' as (r & -> & Hr).
  exists r. split; [exact (kept_rows_sub _ _ _ Hr)|].
  intros c. destruct (decide (c ∈ App.available_columns df)) as [Hc|Hc].
  - apply project_lookup, Hc.
  - apply project_lookup_other, Hc.
Qed.

Lemma displayed_rows_are_projections_witness :
  columns (shown (pd_DataFrame Samples.unrelated_and_name) (CStr "전체"))
  = App.available_columns (pd_DataFrame Samples.unrelated_and_name)
  /\ (forall c,
         c ∈ columns (shown (pd_DataFrame Samples.unrelated_and_name) (CStr "전체")) ->
         c ∈ App.display_columns
         /\ c ∈ columns (pd_DataFrame Samples.unrelated_and_name))
  /\ exists r,
      r ∈ rows (pd_DataFrame Samples.unrelated_and_name)
      /\ forall c,
          project ["이름"] (list_to_map [("team", CStr "A"); ("이름", CStr "Kim")]) !! c
          = if decide (c ∈ App.available_columns
                             (pd_DataFrame Samples.unrelated_and_name))
            then Some (cell_at r c) else None.
Proof.
  apply (displayed_rows_are_projections
           (pd_DataFrame Samples.unrelated_and_name) (CStr "전체")).
  - vm_compute. reflexivity.
  - vm_compute. left.
Defined.

(** ** Credential sources, beyond the resolution order *)

Section Unguarded.
Context {reader : Reader}.

(** X8: building the credential is not guarded.  When credentials.json
    exists but cannot be read as a service account, or when the environment
    secret is the source and is malformed, the exception leaves
    [authorize_gspread] and ends the page right after its head: no error
    message, no failure notice and nothing of the data view is rendered.
    Both scripts, each with its own secret shape. *)
Theorem credential_building_is_unguarded (w : World) (choice : nat) (e : exn) :
  (os_path_exists w "credentials.json" = true ->
   from_service_account_file w "credentials.json" App.SCOPES = Raise e ->
   App.page w choice = (page_head App.SHEET_URL, Raise e)
   /\ StreamlitApp.page w choice = (page_head StreamlitApp.SHEET_URL, Raise e))
  /\ (os_path_exists w "credentials.json" = false ->
      forall sec,
        nested_secret w = Some sec ->
        from_service_account_info w sec App.SCOPES = Raise e ->
        App.page w choice = (page_head App.SHEET_URL, Raise e))
  /\ (os_path_exists w "credentials.json" = false ->
      forall sec,
        top_level_secret w = Some sec ->
        from_service_account_info w sec StreamlitApp.SCOPES = Raise e ->
        StreamlitApp.page w choice = (page_head StreamlitApp.SHEET_URL, Raise e)).
Proof.
  split; [|split].
  - intros Hf He. destruct (unreadable_credentials_propagate w e Hf He) as [H1 H2].
    split.
    + apply page_raises_at_authorize, H1.
    + apply streamlit_page_raises_at_authorize, H2.
  - intros Hf sec Hsec He. apply page_raises_at_authorize.
    unfold App.authorize_gspread.
    change App.SERVICE_ACCOUNT_FILE with "credentials.json".
    rewrite Hf, (secrets_contains_nested _ _ Hsec), bind_ret.
    rewrite (secrets_getitem_nested _ _ Hsec), bind_ret, He. reflexivity.
  - intros Hf sec Hsec He. apply streamlit_page_raises_at_authorize.
    unfold StreamlitApp.authorize_gspread.
    change StreamlitApp.SERVICE_ACCOUNT_FILE with "credentials.json".
    rewrite Hf. unfold top_level_secret in Hsec.
    destruct (st_secrets w) as [kv|] eqn:Hkv; [|discriminate].
    rewrite (secrets_contains_some _ _ _ Hkv), bind_ret. cbn in Hsec.
    destruct (bool_decide ("private_key" ∈ kv.*1)); [|discriminate].
    injection Hsec as <-. change (default [] (Some kv)) with kv.
    rewrite He. reflexivity.
Qed.

End Unguarded.

Lemma credential_building_is_unguarded_witness :
  App.page (Samples.broken_file_world (OtherException "not a service account")) 0
  = (page_head App.SHEET_URL, Raise (OtherException "not a service account"))
  /\ StreamlitApp.page
       (Samples.broken_file_world (OtherException "not a service account")) 0
     = (page_head StreamlitApp.SHEET_URL,
        Raise (OtherException "not a service account")).
Proof.
  apply (proj1 (credential_building_is_unguarded
                  (Samples.broken_file_world (OtherException "not a service account"))
                  0 (OtherException "not a service account")));
    reflexivity.
Defined.

(** X9: the two scripts do not accept each other's environment secret.
    Without credentials.json, secrets that hold the table
    gcp_service_account but no top-level private_key make [app.py] build its
    credential from that table while [streamlit_app.py] reports that no
    credential was found; secrets that hold a top-level private_key but no
    gcp_service_account do the opposite. *)
Theorem secret_shapes_differ (w : World) (kv : list (string * secret)) :
  os_path_exists w "credentials.json" = false ->
  st_secrets w = Some kv ->
  ("gcp_service_account" ∈ kv.*1 -> "private_key" ∉ kv.*1 ->
   (exists sec,
      (list_to_map kv : gmap string secret) !! "gcp_service_account" = Some sec
      /\ App.authorize_gspread w
         = bind (call (from_service_account_info w sec App.SCOPES))
                (App.authorize_with w))
   /\ StreamlitApp.authorize_gspread w
      = ([st_error "인증 정보를 찾을 수 없습니다.";
          st_error "로컬에서는 'credentials.json' 파일이 필요하고, 배포 시에는 Streamlit Cloud의 'Secrets' 설정이 필요합니다."],
         Ok None))
  /\ ("private_key" ∈ kv.*1 -> "gcp_service_account" ∉ kv.*1 ->
      App.authorize_gspread w
      = ([st_error "'credentials.json' 파일을 찾을 수 없거나 Streamlit Secrets가 설정되지 않았습니다."],
         Ok None)
      /\ StreamlitApp.authorize_gspread w
         = bind (call (from_service_account_info w (SecretTable kv)
                         StreamlitApp.SCOPES))
                (StreamlitApp.authorize_with w)).
Proof.
  intros Hf Hkv.
  unfold App.authorize_gspread, StreamlitApp.authorize_gspread.
  change App.SERVICE_ACCOUNT_FILE with "credentials.json".
  change StreamlitApp.SERVICE_ACCOUNT_FILE with "credentials.json".
  rewrite Hf, !(secrets_contains_some _ _ _ Hkv), !bind_ret.
  unfold secrets_getitem. rewrite Hkv. cbn [default].
  split.
  - intros Hin Hnot.
    rewrite (bool_decide_eq_true_2 _ Hin), (bool_decide_eq_false_2 _ Hnot).
    split; [|reflexivity].
    destruct ((list_to_map kv : gmap string secret) !! "gcp_service_account")
      as [sec|] eqn:Hl.
    + exists sec. split; [reflexivity|]. rewrite bind_ret. reflexivity.
    + apply (not_elem_of_list_to_map (M := gmap string)) in Hl. contradiction.
  - intros Hin Hnot.
    rewrite (bool_decide_eq_true_2 _ Hin), (bool_decide_eq_false_2 _ Hnot).
    split; reflexivity.
Qed.

Lemma secret_shapes_differ_witness :
  (exists sec,
     (list_to_map [("gcp_service_account", SecretTable [("private_key", SecretStr "k")])]
        : gmap string secret) !! "gcp_service_account" = Some sec
     /\ App.authorize_gspread
          (Samples.secrets_world
             (Some [("gcp_service_account", SecretTable [("private_key", SecretStr "k")])])
             (Ok Samples.no_sheet_client))
        = bind (call (from_service_account_info
                        (Samples.secrets_world
                           (Some [("gcp_service_account",
                                   SecretTable [("private_key", SecretStr "k")])])
                           (Ok Samples.no_sheet_client))
                        sec App.SCOPES))
               (App.authorize_with
                  (Samples.secrets_world
                     (Some [("gcp_service_account",
                             SecretTable [("private_key", SecretStr "k")])])
                     (Ok Samples.no_sheet_client))))
  /\ StreamlitApp.authorize_gspread
       (Samples.secrets_world
          (Some [("gcp_service_account", SecretTable [("private_key", SecretStr "k")])])
          (Ok Samples.no_sheet_client))
     = ([st_error "인증 정보를 찾을 수 없습니다.";
         st_error "로컬에서는 'credentials.json' 파일이 필요하고, 배포 시에는 Streamlit Cloud의 'Secrets' 설정이 필요합니다."],
        Ok None).
Proof.
  apply (proj1 (secret_shapes_differ
                  (Samples.secrets_world
                     (Some [("gcp_service_account",
                             SecretTable [("private_key", SecretStr "k")])])
                     (Ok Samples.no_sheet_client))
                  [("gcp_service_account", SecretTable [("private_key", SecretStr "k")])]
                  eq_refl eq_refl)).
  - decide_by_compute.
  - refute_by_compute.
Defined.

(** ** The page at its default selection *)

(** The metric renders no table. *)
Lemma metric_renders_no_table (d d' : DataFrame) :
  st_dataframe d'
  ∉ output (avg_hours <- App.avg_hours d;;;
            emit (st_metric "평균 누적 시간" (format_1f avg_hours ++ " 시간"))).
Proof.
  assert (H : (exists avg, App.avg_hours d = ret avg)
              \/ (exists e, App.avg_hours d = raise e)).
  { destruct (decide ("누적시간" ∈ columns d)) as [Hc|Hc].
    - rewrite (avg_hours_present _ Hc). unfold mean.
      destruct (numeric_values _) as [[|x xs]|e]; eauto.
    - rewrite (avg_hours_absent _ Hc). eauto. }
  destruct H as [[avg ->]|[e ->]].
  - rewrite bind_ret. cbn. intros H. apply list_elem_of_singleton in H.
    discriminate.
  - cbn. intros H. inversion H.
Qed.

Lemma missing_warning_no_table (df d : DataFrame) :
  st_dataframe d ∉ missing_warning df.
Proof.
  unfold missing_warning. destruct (App.missing_columns df); intros H.
  - inversion H.
  - apply list_elem_of_singleton in H. discriminate.
Qed.

Lemma shown_all_rows (df : DataFrame) :
  rows (shown df (CStr "전체")) = project (App.available_columns df) <$> rows df.
Proof.
  unfold shown, kept_rows. cbn [py_eq rows].
  rewrite bool_decide_eq_true_2 by reflexivity. reflexivity.
Qed.

Section DefaultPage.
Context {reader : Reader}.

Lemma coerced_default (v : option cell) :
  coerced (Some (default (CNum NaN) v)) = coerced v.
Proof. destruct v as [[s|[q| |b]]|]; reflexivity. Qed.

(** Row [i] of the loaded table is record [i] under the columns of the
    table, with its 누적시간 coerced. *)
Lemma loaded_row (data : list (list (string * cell))) (i : nat)
    (rec : list (string * cell)) :
  data !! i = Some rec ->
  exists r,
    rows (loaded data) !! i = Some r
    /\ forall c,
        c ∈ columns (loaded data) ->
        r !! c = Some (if decide (c = "누적시간")
                       then CNum (coerced ((list_to_map rec : gmap string cell) !! c))
                       else default (CNum NaN)
                              ((list_to_map rec : gmap string cell) !! c)).
Proof.
  intros Hi.
  assert (Hrow : rows (pd_DataFrame data) !! i
                 = Some (project (columns (pd_DataFrame data)) (list_to_map rec))).
  { unfold pd_DataFrame at 1. cbn [rows].
    rewrite list_lookup_fmap, Hi. reflexivity. }
  destruct (decide ("누적시간" ∈ columns (pd_DataFrame data))) as [Hh|Hh].
  - rewrite (loaded_rows _ Hh), list_lookup_fmap, Hrow.
    cbn [fmap option_fmap option_map].
    eexists. split; [reflexivity|]. intros c Hc. rewrite loaded_columns in Hc.
    destruct (decide (c = "누적시간")) as [->|Hne].
    + rewrite lookup_insert_eq, (project_lookup _ _ _ Hh). unfold cell_at.
      rewrite coerced_default. reflexivity.
    + rewrite lookup_insert_ne by congruence. apply project_lookup, Hc.
  - unfold loaded. rewrite decide_False by exact Hh. rewrite Hrow.
    eexists. split; [reflexivity|]. intros c Hc.
    rewrite decide_False by (intros ->; exact (Hh Hc)).
    apply project_lookup, Hc.
Qed.

(** X10: with the select box at its default (the first option), a loaded
    table whose 클러스터 cells are all text or all numbers is displayed
    whole: the one table the composer renders has the available wanted
    columns and one row per record of the sheet, in the order of the sheet,
    and row [i] holds, under each of its columns, the cell of record [i]
    ([nan] where the record has no such key), coerced under 누적시간.  Both
    scripts. *)
Theorem default_page_shows_every_record (data : list (list (string * cell)))
    (k : bool) :
  empty (loaded data) = false ->
  "클러스터" ∈ columns (loaded data) ->
  all_kind k (column (loaded data) "클러스터") ->
  st_dataframe (shown (loaded data) (CStr "전체"))
    ∈ output (App.view_composer (loaded data) 0)
  /\ (forall d, st_dataframe d ∈ output (App.view_composer (loaded data) 0) ->
                d = shown (loaded data) (CStr "전체"))
  /\ StreamlitApp.view_composer (loaded data) 0 = App.view_composer (loaded data) 0
  /\ columns (shown (loaded data) (CStr "전체")) = App.available_columns (loaded data)
  /\ length (rows (shown (loaded data) (CStr "전체"))) = length data
  /\ forall i rec,
       data !! i = Some rec ->
       exists r,
         rows (shown (loaded data) (CStr "전체")) !! i = Some r
         /\ forall c,
             c ∈ App.available_columns (loaded data) ->
             r !! c
             = Some (if decide (c = "누적시간")
                     then CNum (coerced ((list_to_map rec : gmap string cell) !! c))
                     else default (CNum NaN)
                            ((list_to_map rec : gmap string cell) !! c)).
Proof.
  intros He Hc Hk.
  assert (Hex : exists r, sorted (unique (column (loaded data) "클러스터")) = Ok r).
  { apply sorted_ok_iff. exists k. apply unique_all_kind, Hk. }
  destruct Hex as [opts Hs].
  assert (Hne : App.available_columns (loaded data) <> []).
  { apply (available_nonempty _ "클러스터"), available_elem; [decide_by_compute | exact Hc]. }
  rewrite (view_composer_table _ 0 _ He Hc Hs).
  change (chosen (CStr "전체" :: opts) 0) with (CStr "전체").
  unfold after. cbn [output fst].
  split; [|split; [|split; [|split; [|split]]]].
  - apply elem_of_app. left. apply elem_of_app. right.
    do 3 right. left.
  - intros d Hd. apply elem_of_app in Hd as [Hd|Hd].
    + apply elem_of_app in Hd as [Hd|Hd].
      * destruct (missing_warning_no_table _ _ Hd).
      * repeat (apply elem_of_cons in Hd as [Hd|Hd]; [try discriminate|]).
        -- injection Hd as ->. reflexivity.
        -- inversion Hd.
    + destruct (metric_renders_no_table _ _ Hd).
  - rewrite (view_composer_same _ _ He Hne).
    rewrite (view_composer_table _ 0 _ He Hc Hs). reflexivity.
  - reflexivity.
  - rewrite shown_all_rows, length_fmap. apply loaded_length.
  - intros i rec Hi. destruct (loaded_row data i rec Hi) as (r & Hr & Hcells).
    exists (project (App.available_columns (loaded data)) r).
    rewrite shown_all_rows, list_lookup_fmap, Hr. split; [reflexivity|].
    intros c Hca. rewrite (project_lookup _ _ _ Hca). unfold cell_at.
    rewrite (Hcells c (available_in_columns _ _ Hca)). reflexivity.
Qed.

End DefaultPage.

Lemma default_page_shows_every_record_witness :
  st_dataframe (shown (loaded Samples.scenario_A) (CStr "전체"))
    ∈ output (App.view_composer (loaded Samples.scenario_A) 0)
  /\ (forall d,
         st_dataframe d ∈ output (App.view_composer (loaded Samples.scenario_A) 0) ->
         d = shown (loaded Samples.scenario_A) (CStr "전체"))
  /\ StreamlitApp.view_composer (loaded Samples.scenario_A) 0
     = App.view_composer (loaded Samples.scenario_A) 0
  /\ columns (shown (loaded Samples.scenario_A) (CStr "전체"))
     = App.available_columns (loaded Samples.scenario_A)
  /\ length (rows (shown (loaded Samples.scenario_A) (CStr "전체")))
     = length Samples.scenario_A
  /\ forall i rec,
       Samples.scenario_A !! i = Some rec ->
       exists r,
         rows (shown (loaded Samples.scenario_A) (CStr "전체")) !! i = Some r
         /\ forall c,
             c ∈ App.available_columns (loaded Samples.scenario_A) ->
             r !! c
             = Some (if decide (c = "누적시간")
                     then CNum (coerced ((list_to_map rec : gmap string cell) !! c))
                     else default (CNum NaN)
                            ((list_to_map rec : gmap string cell) !! c)).
Proof.
  apply (default_page_shows_every_record Samples.scenario_A true).
  - reflexivity.
  - decide_by_compute.
  - vm_compute. repeat constructor.
Defined.

(** ** Every option shows something *)

(** X11: on a non-empty table whose 클러스터 cells are never [nan], every
    option the select box offers, whichever position the operator picks,
    displays at least one row.  Both scripts. *)
Theorem every_option_displays_a_row (df : DataFrame) (options : list cell)
    (choice : nat) (d : DataFrame) :
  empty df = false ->
  (forall v, v ∈ column df "클러스터" -> v <> CNum NaN) ->
  App.all_clusters df = ret options ->
  App.df_display df (App.available_columns df) (chosen options choice) = ret d ->
  rows d <> []
  /\ StreamlitApp.df_display df (StreamlitApp.available_columns df)
       (chosen options choice) = ret d.
Proof.
  intros He Hnan Hopts Hd. split; [|exact Hd].
  apply df_display_returns in Hd. subst d.
  revert Hopts. unfold App.all_clusters.
  destruct (decide ("클러스터" ∈ columns df)) as [Hc|Hc].
  2:{ rewrite (getitem_absent _ _ Hc). discriminate. }
  rewrite (getitem_present _ _ Hc), bind_ret.
  destruct (sorted (unique (map (fun r => cell_at r "클러스터") (rows df))))
    as [opts|e] eqn:Hs; [|discriminate].
  rewrite bind_call_ok. intros [= <-].
  cbn [shown rows]. intros Hnil. apply fmap_nil_inv in Hnil. revert Hnil.
  apply (kept_rows_nonempty df choice opts He Hs).
  intros r Hr. apply Hnan. unfold column. apply list_elem_of_fmap. eauto.
Qed.

Lemma every_option_displays_a_row_witness :
  rows (shown (loaded Samples.scenario_A) (CStr "B")) <> []
  /\ StreamlitApp.df_display (loaded Samples.scenario_A)
       (StreamlitApp.available_columns (loaded Samples.scenario_A))
       (chosen [CStr "전체"; CStr "A"; CStr "B"] 2)
     = ret (shown (loaded Samples.scenario_A) (CStr "B")).
Proof.
  apply (every_option_displays_a_row (loaded Samples.scenario_A)
           [CStr "전체"; CStr "A"; CStr "B"] 2).
  - reflexivity.
  - intros v Hv. vm_compute in Hv.
    repeat (apply elem_of_cons in Hv as [->|Hv]; [discriminate|]).
    inversion Hv.
  - vm_compute. reflexivity.
  - vm_compute. reflexivity.
Defined.

